(** * telekick: the activity recorder, the eviction scanner and the ban action

    A shallow embedding of [main.go] (and of the older copy of the same
    program that lacks the report command, kept here as [Legacy]).

    The program talks to three outside parties: the wall clock, a MongoDB
    collection reached through [mgo], and the Telegram Bot API reached
    through [telebot].  Every call that leaves the process is written to a
    chronological [trace]; what the outside answers is given by an [Env] of
    oracles that see the whole trace so far, so that statements quantified
    over [Env] cover every behaviour of the outside world.  The collection
    itself is modelled concretely as the list of its documents. *)

From Stdlib Require Import ZArith List String Ascii Bool Lia DecimalString.
From Stdlib Require Import Sorted Permutation.
From Stdlib Require DecimalPos DecimalZ.
Import ListNotations.
Local Open Scope Z_scope.
Local Set Warnings "-register-all".

(** ** Go values *)

(** [error] values: [errors.New] and karma's [Format(reason, message)]. *)
Inductive error : Type :=
| errors_New (text : string)
| karma_Format (reason : error) (message : string).

(** Two's complement wrap-around of [int64] arithmetic. *)
Definition wrap64 (z : Z) : Z := (z + 2 ^ 63) mod 2 ^ 64 - 2 ^ 63.

Definition in_int64 (z : Z) : bool := (- 2 ^ 63 <=? z) && (z <? 2 ^ 63).

Module strconv.
(** [strconv.FormatInt(i, 10)]; [fmt.Sprint] of an [int64] prints the same. *)
Definition FormatInt (i : Z) : string := NilZero.string_of_int (Z.to_int i).
End strconv.

Module fmt.
Definition Sprint (i : Z) : string := strconv.FormatInt i.
End fmt.

Module time.
(** A [time.Time] is kept as its nanoseconds since the Unix epoch, a
    [time.Duration] as its [int64] nanoseconds. *)
Definition Second : Z := 1000000000.
Definition Hour : Z := 3600 * Second.

Definition Add (t d : Z) : Z := t + d.
Definition Unix (t : Z) : Z := t / Second.
Definition FromUnix (sec : Z) : Z := sec * Second.

(** [Time.Sub] saturates at the ends of the [Duration] range. *)
Definition Sub (t u : Z) : Z := Z.max (- 2 ^ 63) (Z.min (2 ^ 63 - 1) (t - u)).
End time.

(** ** encoding/json, as far as [ban] uses it

    A reply body is kept as the document it spells: [None] stands for bytes
    that are not a JSON text (among them the empty body of a request that
    never reached the server).  A number keeps only whether its literal is
    a plain integer. *)
Module json.
Inductive number : Type := Int (z : Z) | Frac.

Inductive value : Type :=
| Null
| Bool (b : bool)
| Number (n : number)
| String (s : string)
| Array (elems : list value)
| Object (members : list (string * value)).

Definition text : Type := option value.

(** The anonymous struct [ban] decodes into. *)
Record ParametersT : Type := { MigrateToChatID : Z }.
Record Migrations : Type := { Parameters : ParametersT }.

Definition lower (c : ascii) : ascii :=
  let n := N_of_ascii c in
  if ((65 <=? n) && (n <=? 90))%N then ascii_of_N (n + 32) else c.

Fixpoint fold (s : string) : string :=
  match s with
  | EmptyString => EmptyString
  | String.String c s' => String.String (lower c) (fold s')
  end.

(** Keys match a field's name exactly or up to ASCII letter case. *)
Definition equalFold (name key : string) : bool :=
  String.eqb (fold name) (fold key).

(** Go records a type error and goes on decoding; [Unmarshal] then
    returns that error, so here the first error ends the decoding. *)
Fixpoint members_into {T : Type} (name : string) (set : value -> T -> option T)
         (o : list (string * value)) (acc : T) : option T :=
  match o with
  | [] => Some acc
  | (k, v) :: o' =>
      if equalFold name k then
        match set v acc with
        | Some acc' => members_into name set o' acc'
        | None => None
        end
      else members_into name set o' acc
  end.

Definition struct_into {T : Type} (name : string) (set : value -> T -> option T)
           (v : value) (acc : T) : option T :=
  match v with
  | Null => Some acc
  | Object o => members_into name set o acc
  | _ => None
  end.

Definition int64_into (v : value) (acc : Z) : option Z :=
  match v with
  | Null => Some acc
  | Number (Int z) => if in_int64 z then Some z else None
  | _ => None
  end.

Definition parameters_into (v : value) (acc : ParametersT) : option ParametersT :=
  option_map (fun z => {| MigrateToChatID := z |})
             (struct_into "migrate_to_chat_id" int64_into v (MigrateToChatID acc)).

Definition migrations_into (v : value) (acc : Migrations) : option Migrations :=
  option_map (fun p => {| Parameters := p |})
             (struct_into "parameters" parameters_into v (Parameters acc)).

(** [json.Unmarshal(data, &migrations)] on a zero [migrations]; [None] is
    a non-nil error. *)
Definition Unmarshal (data : text) : option Migrations :=
  match data with
  | None => None
  | Some v => migrations_into v {| Parameters := {| MigrateToChatID := 0 |} |}
  end.
End json.

(** ** The activity table *)

(** [type User struct] of [main.go]: one document of the collection. *)
Record User : Type := { UserID : Z; LastMessage : Z }.

Module bson.
(** The four selectors the program builds with [bson.M]. *)
Inductive M : Type :=
| all                          (* bson.M{} *)
| user_id (id : Z)             (* bson.M{"user_id": id} *)
| last_message_gt (t : Z)      (* bson.M{"last_message": bson.M{"$gt": t}} *)
| last_message_lt (t : Z).     (* bson.M{"last_message": bson.M{"$lt": t}} *)
End bson.

Module mgo.
Definition ErrNotFound : error := errors_New "not found".

Definition matches (sel : bson.M) (u : User) : bool :=
  match sel with
  | bson.all => true
  | bson.user_id id => UserID u =? id
  | bson.last_message_gt t => t <? LastMessage u
  | bson.last_message_lt t => LastMessage u <? t
  end.

(** [Find(sel).All]: the matching documents in collection order. *)
Definition All (sel : bson.M) (docs : list User) : list User :=
  filter (matches sel) docs.

(** [Find(sel).Count]. *)
Definition Count (sel : bson.M) (docs : list User) : Z :=
  Z.of_nat (List.length (All sel docs)).

Fixpoint insert_sorted (u : User) (l : list User) : list User :=
  match l with
  | [] => [u]
  | v :: l' =>
      if LastMessage u <? LastMessage v then u :: l
      else v :: insert_sorted u l'
  end.

(** [Sort("last_message")]: ascending. *)
Definition Sort (l : list User) : list User :=
  fold_right insert_sorted [] (rev l).

(** [Remove(sel)] deletes one matching document; with none to delete it
    reports [ErrNotFound] (the session [mgo.Dial] returns is in safe
    mode). *)
Fixpoint Remove (sel : bson.M) (docs : list User) : option (list User) :=
  match docs with
  | [] => None
  | u :: docs' =>
      if matches sel u then Some docs'
      else option_map (cons u) (Remove sel docs')
  end.

(** [Upsert(bson.M{"user_id": user}, $set {user_id, last_message})]:
    rewrites the first matching document, or adds one. *)
Fixpoint Upsert (user now : Z) (docs : list User) : list User :=
  match docs with
  | [] => [{| UserID := user; LastMessage := now |}]
  | u :: docs' =>
      if matches (bson.user_id user) u
      then {| UserID := user; LastMessage := now |} :: docs'
      else u :: Upsert user now docs'
  end.
End mgo.

(** ** telebot values *)
Module telebot.
Record User : Type := { ID : Z }.

Record Message : Type := {
  Text : string;
  Sender : option User;
  UserJoined : option User;
  UserLeft : option User
}.

Record Update : Type := { Message_ : option Message }.

(** What [ChatByID] returns, as far as the report reads it. *)
Record Chat : Type := {
  Username : string;
  FirstName : string;
  LastName : string
}.

(** [Recipient] of a [Chat] or a [User]: the id in decimal. *)
Definition Recipient (id : Z) : string := strconv.FormatInt id.

Definition Params : Type := list (string * string).

(** [Forever()] read at [now]: [now.Add(367 * 24 * time.Hour).Unix()]. *)
Definition ForeverAt (now : Z) : Z :=
  time.Unix (time.Add now (367 * 24 * time.Hour)).
End telebot.

(** ** The outside world *)

Inductive Level : Type := Info | Error | Fatal.

(** One entry per call that leaves the process, with what came back. *)
Inductive Event : Type :=
| Now (t : Z)
| Sleep (d : Z)
| Log (lvl : Level) (err : option error) (format : string) (args : list Z)
| StoreCount (sel : bson.M) (n : Z) (err : option error)
| StoreAll (sel : bson.M) (sorted : bool) (users : list User) (err : option error)
| StoreRemove (sel : bson.M) (err : option error)
| StoreUpsert (user now : Z) (err : option error)
| BotRaw (method : string) (params : telebot.Params) (data : json.text)
         (err : option error)
| BotSend (to : Z) (text : string) (err : option error)
| BotChatByID (id : Z) (res : telebot.Chat + error)
| BotSetCommands (err : option error).

(** The answers of the outside, each a function of the trace so far.
    [store_fault] says whether the next store call fails for a reason of
    the store's own (and how many documents an [All] had delivered by
    then); [Duration_String] is [time.Duration.String]. *)
Record Env : Type := {
  clock : list Event -> Z;
  store_fault : list Event -> option (error * nat);
  api_Raw : list Event -> string -> telebot.Params -> json.text * option error;
  api_Send : list Event -> Z -> string -> option error;
  api_ChatByID : list Event -> Z -> telebot.Chat + error;
  api_SetCommands : list Event -> option error;
  Duration_String : Z -> string
}.

Record World : Type := { docs : list User; trace : list Event }.

Definition record (e : Event) (w : World) : World :=
  {| docs := docs w; trace := trace w ++ [e] |}.

Definition with_docs (d : list User) (w : World) : World :=
  {| docs := d; trace := trace w |}.

(** ** The monad of the program: state, plus the two ways a goroutine
    takes the process down ([os.Exit] from [log.Fatalf], and a panic). *)

Inductive Outcome (A : Type) : Type :=
| Ret (a : A)
| Exit (code : Z)
| Panic.
Arguments Ret {A} a.
Arguments Exit {A} code.
Arguments Panic {A}.

Definition M (A : Type) : Type := World -> Outcome A * World.

Definition ret {A : Type} (a : A) : M A := fun w => (Ret a, w).

Definition bind {A B : Type} (m : M A) (k : A -> M B) : M B :=
  fun w =>
    match m w with
    | (Ret a, w') => k a w'
    | (Exit c, w') => (Exit c, w')
    | (Panic, w') => (Panic, w')
    end.

Declare Scope go_scope.
Delimit Scope go_scope with go.
Notation "x <- m ;; k" := (bind m (fun x => k))
  (at level 61, m at next level, right associativity) : go_scope.
Notation "' pat <- m ;; k" := (bind m (fun x => match x with pat => k end))
  (at level 61, pat pattern, m at next level, right associativity) : go_scope.
Notation "m ;; k" := (bind m (fun _ => k))
  (at level 61, right associativity) : go_scope.
Local Open Scope go_scope.

(** [for _, x := range l { body }]. *)
Fixpoint range {A : Type} (l : list A) (body : A -> M unit) : M unit :=
  match l with
  | [] => ret tt
  | x :: l' => body x ;; range l' body
  end.

Definition emit (e : Event) : M unit := fun w => (Ret tt, record e w).

Definition exit {A : Type} (code : Z) : M A := fun w => (Exit code, w).

Definition panic {A : Type} : M A := fun w => (Panic, w).

(** ** The program *)

(** [type Watcher struct]: the bot and the store live in the outside
    world; the chat is kept as its id. *)
Record Watcher : Type := { chat : Z; duration : Z }.

(** [now.Add(watcher.duration * -1).Unix()]. *)
Definition cutoffAt (watcher : Watcher) (now : Z) : Z :=
  time.Unix (time.Add now (wrap64 (duration watcher * -1))).

Definition newline : string := String.String (ascii_of_nat 10) EmptyString.

Section Program.
Variable E : Env.

(** *** Calls that leave the process *)

Definition time_Now : M Z :=
  fun w => let t := clock E (trace w) in (Ret t, record (Now t) w).

Definition time_Sleep (d : Z) : M unit := emit (Sleep d).

Definition log_Infof (format : string) (args : list Z) : M unit :=
  emit (Log Info None format args).

Definition log_Errorf (err : error) (format : string) (args : list Z) : M unit :=
  emit (Log Error (Some err) format args).

(** [log.Fatalf] writes the line and leaves with [os.Exit(1)]. *)
Definition log_Fatalf {A : Type} (err : error) (format : string) (args : list Z)
  : M A :=
  emit (Log Fatal (Some err) format args) ;; exit 1.

(** [store.Find(sel).Count()]. *)
Definition store_Count (sel : bson.M) : M (Z * option error) :=
  fun w =>
    match store_fault E (trace w) with
    | Some (e, _) => (Ret (0, Some e), record (StoreCount sel 0 (Some e)) w)
    | None =>
        let n := mgo.Count sel (docs w) in
        (Ret (n, None), record (StoreCount sel n None) w)
    end.

(** [store.Find(sel).All(&users)], after [Sort("last_message")] when
    [sorted].  A failing [All] leaves in [users] what it had decoded. *)
Definition store_All (sel : bson.M) (sorted : bool) : M (list User * option error) :=
  fun w =>
    let found := mgo.All sel (docs w) in
    let found := if sorted then mgo.Sort found else found in
    match store_fault E (trace w) with
    | Some (e, k) =>
        let part := firstn k found in
        (Ret (part, Some e), record (StoreAll sel sorted part (Some e)) w)
    | None => (Ret (found, None), record (StoreAll sel sorted found None) w)
    end.

(** [store.Remove(sel)]. *)
Definition store_Remove (sel : bson.M) : M (option error) :=
  fun w =>
    match store_fault E (trace w) with
    | Some (e, _) => (Ret (Some e), record (StoreRemove sel (Some e)) w)
    | None =>
        match mgo.Remove sel (docs w) with
        | Some d => (Ret None, record (StoreRemove sel None) (with_docs d w))
        | None =>
            (Ret (Some mgo.ErrNotFound),
             record (StoreRemove sel (Some mgo.ErrNotFound)) w)
        end
    end.

(** [store.Upsert(bson.M{"user_id": user}, ...)]. *)
Definition store_Upsert (user now : Z) : M (option error) :=
  fun w =>
    match store_fault E (trace w) with
    | Some (e, _) => (Ret (Some e), record (StoreUpsert user now (Some e)) w)
    | None =>
        (Ret None,
         record (StoreUpsert user now None)
                (with_docs (mgo.Upsert user now (docs w)) w))
    end.

(** [bot.Raw(method, params)]. *)
Definition bot_Raw (method : string) (params : telebot.Params)
  : M (json.text * option error) :=
  fun w =>
    let r := api_Raw E (trace w) method params in
    (Ret r, record (BotRaw method params (fst r) (snd r)) w).

(** [bot.Send(to, text)] with [to] a [*User]: a nil [to] is a non-nil
    [Recipient], whose [Recipient()] dereferences it. *)
Definition bot_Send (to : option telebot.User) (text : string) : M (option error) :=
  match to with
  | None => panic
  | Some u =>
      fun w =>
        let err := api_Send E (trace w) (telebot.ID u) text in
        (Ret err, record (BotSend (telebot.ID u) text err) w)
  end.

(** [bot.ChatByID(id)]. *)
Definition bot_ChatByID (id : Z) : M (telebot.Chat + error) :=
  fun w =>
    let r := api_ChatByID E (trace w) id in
    (Ret r, record (BotChatByID id r) w).

(** [bot.SetCommands(...)]. *)
Definition bot_SetCommands : M (option error) :=
  fun w =>
    let err := api_SetCommands E (trace w) in
    (Ret err, record (BotSetCommands err) w).

(** [telebot.Forever()]: [time.Now().Add(367 * 24 * time.Hour).Unix()]. *)
Definition telebot_Forever : M Z :=
  t <- time_Now ;;
  ret (telebot.ForeverAt t).

(** *** main.go *)

Fixpoint listTimestamps_loop (watcher : Watcher) (users : list User)
         (entries : list string) : M (list string) :=
  match users with
  | [] => ret entries
  | user :: users' =>
      r <- bot_ChatByID (UserID user) ;;
      match r with
      | inr err =>
          log_Errorf err "chat by id: %v" [UserID user] ;;
          listTimestamps_loop watcher users' entries
      | inl chat =>
          let timestamp := time.FromUnix (LastMessage user) in
          now <- time_Now ;;
          listTimestamps_loop watcher users'
            (entries ++
             [("@" ++ telebot.Username chat ++ " " ++
               telebot.FirstName chat ++ " " ++
               telebot.LastName chat ++ " " ++
               Duration_String E (time.Sub now timestamp))%string])
      end
  end.

Definition listTimestamps (watcher : Watcher) : M (string * option error) :=
  '(users, err) <- store_All bson.all true ;;
  match err with
  | Some e => ret (EmptyString, Some e)
  | None =>
      entries <- listTimestamps_loop watcher users [] ;;
      ret (String.concat newline entries, None)
  end.

Definition updateLastMessage (watcher : Watcher) (user : Z) : M (option error) :=
  t <- time_Now ;;
  let now := time.Unix t in
  log_Infof "update user: %v now: %v" [user; now] ;;
  err <- store_Upsert user now ;;
  match err with
  | Some e => ret (Some (karma_Format e "update user"))
  | None => ret None
  end.

Definition is_command (text : string) : bool :=
  String.eqb text "/when" || String.eqb text "q".

Definition handle (watcher : Watcher) (update : telebot.Update) : M (option error) :=
  match telebot.Message_ update with
  | None => ret None
  | Some message =>
      if is_command (telebot.Text message) then
        '(entries, err) <- listTimestamps watcher ;;
        match err with
        | Some e => ret (Some e)
        | None => bot_Send (telebot.Sender message) entries
        end
      else
        match telebot.UserLeft message with
        | Some leaver =>
            log_Infof "remove user: %v now: %v" [telebot.ID leaver] ;;
            err <- store_Remove (bson.user_id (telebot.ID leaver)) ;;
            match err with
            | Some e => ret (Some (karma_Format e "remove user"))
            | None => ret None
            end
        | None =>
            match telebot.UserJoined message with
            | Some joined => updateLastMessage watcher (telebot.ID joined)
            | None =>
                match telebot.Sender message with
                | None => ret None
                | Some sender => updateLastMessage watcher (telebot.ID sender)
                end
            end
        end
  end.

(** [for update := range updates { watcher.handle(update) }]: what
    [handle] returns is dropped. *)
Definition handle_each (handle : Watcher -> telebot.Update -> M (option error))
           (watcher : Watcher) (updates : list telebot.Update) : M unit :=
  range updates (fun update => _ <- handle watcher update ;; ret tt).

(** [Record], on the updates the poller delivers before the channel is
    closed. *)
Definition Record_ (watcher : Watcher) (updates : list telebot.Update) : M unit :=
  err <- bot_SetCommands ;;
  match err with
  | Some e => log_Fatalf e "set commands" []
  | None => ret tt
  end ;;
  handle_each handle watcher updates ;;
  log_Infof "telekick started" [].

Definition banParams (chat_id : string) (user until : Z) : telebot.Params :=
  [("chat_id", chat_id);
   ("user_id", strconv.FormatInt user);
   ("until_date", strconv.FormatInt until)]%string.

Definition ban (watcher : Watcher) (user : Z) : M (option error) :=
  until <- telebot_Forever ;;
  let params := banParams (telebot.Recipient (chat watcher)) user until in
  '(data, banErr) <- bot_Raw "banChatMember" params ;;
  match banErr with
  | Some _ =>
      match json.Unmarshal data with
      | None => ret banErr
      | Some migrations =>
          let id := json.MigrateToChatID (json.Parameters migrations) in
          if negb (id =? 0) then
            until <- telebot_Forever ;;
            let params := banParams (fmt.Sprint id) user until in
            '(_, banErr) <- bot_Raw "banChatMember" params ;;
            ret banErr
          else ret None
      end
  | None => ret None
  end.

Definition interval : Z := time.Hour.

(** The cutoff both queries of a cycle compute:
    [time.Now().Add(watcher.duration * -1).Unix()]. *)
Definition cutoff (watcher : Watcher) : M Z :=
  t <- time_Now ;;
  ret (cutoffAt watcher t).

Definition kick (watcher : Watcher) (user : User) : M unit :=
  log_Infof "kick %v" [UserID user] ;;
  err <- ban watcher (UserID user) ;;
  match err with
  | Some e => log_Errorf e "ban %v" [UserID user]
  | None => ret tt
  end.

(** One turn of the [for] of [WatchKick]. *)
Definition WatchKick_cycle (watcher : Watcher) : M unit :=
  gt <- cutoff watcher ;;
  '(since, err) <- store_Count (bson.last_message_gt gt) ;;
  match err with
  | Some e => log_Fatalf e "find messages" []
  | None => ret tt
  end ;;
  if since =? 0 then
    log_Infof "no messages since %v" [duration watcher] ;;
    time_Sleep interval
  else
    lt <- cutoff watcher ;;
    '(users, _) <- store_All (bson.last_message_lt lt) false ;;
    range users (kick watcher) ;;
    time_Sleep interval.

(** [WatchKick] never returns; these are its first [n] turns. *)
Fixpoint WatchKick (n : nat) (watcher : Watcher) : M unit :=
  match n with
  | O => ret tt
  | S n' => WatchKick_cycle watcher ;; WatchKick n' watcher
  end.

End Program.

(** ** The older copy: no report command, no [SetCommands]

  [updateLastMessage], [WatchKick] and [ban] are the same text there
  (its [WatchKick] decodes only [user_id], the one field the loop reads). *)
Module Legacy.
Section Program.
Variable E : Env.

Definition handle (watcher : Watcher) (update : telebot.Update)
  : M (option error) :=
  match telebot.Message_ update with
  | None => ret None
  | Some message =>
      match telebot.UserLeft message with
      | Some leaver =>
          log_Infof "remove user: %v now: %v" [telebot.ID leaver] ;;
          err <- store_Remove E (bson.user_id (telebot.ID leaver)) ;;
          match err with
          | Some e => ret (Some (karma_Format e "remove user"))
          | None => ret None
          end
      | None =>
          match telebot.UserJoined message with
          | Some joined => updateLastMessage E watcher (telebot.ID joined)
          | None =>
              match telebot.Sender message with
              | None => ret None
              | Some sender => updateLastMessage E watcher (telebot.ID sender)
              end
          end
      end
  end.

Definition Record_ (watcher : Watcher) (updates : list telebot.Update) : M unit :=
  handle_each handle watcher updates ;;
  log_Infof "telekick started" [].
End Program.
End Legacy.

(** ** Reading a trace *)

(** The world after the further calls [delta], the store untouched. *)
Definition extend (w : World) (delta : list Event) : World :=
  {| docs := docs w; trace := trace w ++ delta |}.

(** A ban request sent to Telegram. *)
Definition is_removal (e : Event) : bool :=
  match e with
  | BotRaw _ _ _ _ => true
  | _ => false
  end.

(** The query for stale members. *)
Definition is_stale_query (e : Event) : bool :=
  match e with
  | StoreAll (bson.last_message_lt _) _ _ _ => true
  | _ => false
  end.

Definition is_store_write (e : Event) : bool :=
  match e with
  | StoreRemove _ _ | StoreUpsert _ _ _ => true
  | _ => false
  end.

(** A line logged above [Info]: the report of a failure. *)
Definition is_failure_log (e : Event) : bool :=
  match e with
  | Log Error _ _ _ | Log Fatal _ _ _ => true
  | _ => false
  end.

(** The [(user, now)] of every upsert called, in order. *)
Fixpoint upserts (tr : list Event) : list (Z * Z) :=
  match tr with
  | [] => []
  | StoreUpsert user now _ :: tr' => (user, now) :: upserts tr'
  | _ :: tr' => upserts tr'
  end.

(** The selectors of every remove called, in order. *)
Fixpoint removes (tr : list Event) : list bson.M :=
  match tr with
  | [] => []
  | StoreRemove sel _ :: tr' => sel :: removes tr'
  | _ :: tr' => removes tr'
  end.

(** The parameters of every ban request, in order. *)
Fixpoint ban_requests (tr : list Event) : list telebot.Params :=
  match tr with
  | [] => []
  | BotRaw _ params _ _ :: tr' => params :: ban_requests tr'
  | _ :: tr' => ban_requests tr'
  end.

(** A ban request for [user] to the chat [watcher] is configured with. *)
Definition requests_ban (watcher : Watcher) (user : Z) (e : Event) : Prop :=
  exists (until : Z) (data : json.text) (err : option error),
    e = BotRaw "banChatMember"
               (banParams (telebot.Recipient (chat watcher)) user until) data err.

(** The active count in the words of the specification:
    records with [last_activity >= threshold]. *)
Definition count_active_spec (threshold : Z) (docs : list User) : Z :=
  Z.of_nat (List.length (filter (fun u => threshold <=? LastMessage u) docs)).

(** The records strictly newer than [threshold]. *)
Definition newer_than (threshold : Z) (docs : list User) : list User :=
  filter (fun u => threshold <? LastMessage u) docs.

(** A computation that only reads the store and only adds to the trace. *)
Definition frames {A : Type} (m : M A) : Prop :=
  forall w, exists delta, snd (m w) = extend w delta.

(** ** Concrete surroundings, for running the program *)
Module Scenario.

Definition day : Z := 24 * time.Hour.

(** A group chat and a one-day limit. *)
Definition watcher : Watcher := {| chat := -100; duration := day |}.

Definition refused : error := errors_New "telegram: Bad Request (400)".

Definition unreachable : error := errors_New "no reachable servers".

(** Telegram's answer to a ban it refuses for a reason other than a
    migration. *)
Definition body_refused : json.text :=
  Some (json.Object
          [("ok", json.Bool false);
           ("error_code", json.Number (json.Int 400));
           ("description", json.String "Bad Request: not enough rights")]%string).


Definition body_ok : json.text :=
  Some (json.Object [("ok", json.Bool true); ("result", json.Bool true)]%string).

Definition nobody : telebot.Chat :=
  {| telebot.Username := "ghost"; telebot.FirstName := "A"; telebot.LastName := "B" |}.

(** Surroundings built from a clock, the store's faults and Telegram's
    answer to raw calls; everything else succeeds. *)
Definition env (now : list Event -> Z)
           (fault : list Event -> option (error * nat))
           (raw : list Event -> string -> telebot.Params -> json.text * option error)
  : Env :=
  {| clock := now;
     store_fault := fault;
     api_Raw := raw;
     api_Send := fun _ _ _ => None;
     api_ChatByID := fun _ _ => inl nobody;
     api_SetCommands := fun _ => None;
     Duration_String := fun d => strconv.FormatInt d |}.

(** The clock stands at [t] seconds and moves on by what was slept. *)
Fixpoint slept (tr : list Event) : Z :=
  match tr with
  | [] => 0
  | Sleep d :: tr' => d + slept tr'
  | _ :: tr' => slept tr'
  end.

Definition clock_from (t : Z) (tr : list Event) : Z :=
  time.FromUnix t + slept tr.

Definition healthy (tr : list Event) : option (error * nat) := None.

(** The store answers its first call and fails from then on. *)
Definition fails_after_first (tr : list Event) : option (error * nat) :=
  if existsb (fun e => match e with StoreCount _ _ _ => true | _ => false end) tr
  then Some (unreachable, O) else None.

(** The store fails its first write only. *)
Definition fails_first_write (tr : list Event) : option (error * nat) :=
  if existsb is_store_write tr then None else Some (unreachable, O).

Definition raw_refuses (tr : list Event) (method : string) (params : telebot.Params)
  : json.text * option error :=
  (body_refused, Some refused).

Definition raw_accepts (tr : list Event) (method : string) (params : telebot.Params)
  : json.text * option error :=
  (body_ok, None).


Definition empty : World := {| docs := []; trace := [] |}.

Definition stored (d : list User) : World := {| docs := d; trace := [] |}.

Definition message (text : string) (sender joined leaver : option Z) : telebot.Update :=
  {| telebot.Message_ :=
       Some {| telebot.Text := text;
               telebot.Sender := option_map telebot.Build_User sender;
               telebot.UserJoined := option_map telebot.Build_User joined;
               telebot.UserLeft := option_map telebot.Build_User leaver |} |}.

End Scenario.

(** ** Further readings of a trace and of the store *)

(** The members of the "kick" lines the scanner logged, in order. *)
Fixpoint kicked (tr : list Event) : list Z :=
  match tr with
  | [] => []
  | Log Info None format [id] :: tr' =>
      if String.eqb format "kick %v" then id :: kicked tr' else kicked tr'
  | _ :: tr' => kicked tr'
  end.

(** How long each [time.Sleep] was, in order. *)
Fixpoint sleeps (tr : list Event) : list Z :=
  match tr with
  | [] => []
  | Sleep d :: tr' => d :: sleeps tr'
  | _ :: tr' => sleeps tr'
  end.

(** The ids [ChatByID] was asked for, in order. *)
Fixpoint chat_lookups (tr : list Event) : list Z :=
  match tr with
  | [] => []
  | BotChatByID id _ :: tr' => id :: chat_lookups tr'
  | _ :: tr' => chat_lookups tr'
  end.

(** The [ChatByID] calls that failed. *)
Fixpoint chat_failures (tr : list Event) : list Z :=
  match tr with
  | [] => []
  | BotChatByID id (inr _) :: tr' => id :: chat_failures tr'
  | _ :: tr' => chat_failures tr'
  end.

Definition is_send (e : Event) : bool :=
  match e with
  | BotSend _ _ _ => true
  | _ => false
  end.

(** [params[key]]. *)
Fixpoint param (key : string) (p : telebot.Params) : option string :=
  match p with
  | [] => None
  | (k, v) :: p' => if String.eqb k key then Some v else param key p'
  end.

(** The first document of a member, as [Find(bson.M{"user_id": user}).One]
    would give it. *)
Definition lookup (user : Z) (d : list User) : option User :=
  find (mgo.matches (bson.user_id user)) d.

(** At most one document per member. *)
Definition unique_ids (d : list User) : Prop := NoDup (map UserID d).

(** An update that names a member: one left, one joined, or a sender. *)
Definition names_member (update : telebot.Update) : bool :=
  match telebot.Message_ update with
  | None => false
  | Some message =>
      match telebot.UserLeft message, telebot.UserJoined message,
            telebot.Sender message with
      | None, None, None => false
      | _, _, _ => true
      end
  end.

(** An update whose text is a report command. *)
Definition asks_report (update : telebot.Update) : bool :=
  match telebot.Message_ update with
  | None => false
  | Some message => is_command (telebot.Text message)
  end.

(** A computation that keeps the store at one document per member. *)
Definition keeps_unique {A : Type} (m : M A) : Prop :=
  forall w, unique_ids (docs w) -> unique_ids (docs (snd (m w))).

(** The store calls that change the store, among the calls of a trace. *)
Definition store_writes (tr : list Event) : list Event := filter is_store_write tr.

(** A computation that only adds to the trace, and no store write. *)
Definition reads_only {A : Type} (m : M A) : Prop :=
  forall w, exists delta,
      snd (m w) = extend w delta /\ existsb is_store_write delta = false.

(** ** More concrete surroundings *)
Module Cases.

(** The store fails every call. *)
Definition down (tr : list Event) : option (error * nat) :=
  Some (Scenario.unreachable, O).

(** A quiet, working world at 1000 s. *)
Definition calm : Env :=
  Scenario.env (Scenario.clock_from 1000) Scenario.healthy Scenario.raw_accepts.

(** The same with the store down. *)
Definition storeless : Env :=
  Scenario.env (Scenario.clock_from 1000) down Scenario.raw_accepts.

(** Telegram refuses to register the command. *)
Definition unregistered : Env :=
  {| clock := Scenario.clock_from 1000;
     store_fault := Scenario.healthy;
     api_Raw := Scenario.raw_accepts;
     api_Send := fun _ _ _ => None;
     api_ChatByID := fun _ _ => inl Scenario.nobody;
     api_SetCommands := fun _ => Some Scenario.refused;
     Duration_String := fun d => strconv.FormatInt d |}.

(** Telegram knows every member but member 2. *)
Definition forgetful : Env :=
  {| clock := Scenario.clock_from 1000;
     store_fault := Scenario.healthy;
     api_Raw := Scenario.raw_accepts;
     api_Send := fun _ _ _ => None;
     api_ChatByID :=
       fun _ id => if id =? 2 then inr Scenario.refused else inl Scenario.nobody;
     api_SetCommands := fun _ => None;
     Duration_String := fun d => strconv.FormatInt d |}.

(** A day-old scan: the clock at 100000 s. *)
Definition later : Env :=
  Scenario.env (Scenario.clock_from 100000) Scenario.healthy Scenario.raw_accepts.

Definition alice : User := {| UserID := 1; LastMessage := 0 |}.
Definition bob : User := {| UserID := 2; LastMessage := 13601 |}.
Definition carol : User := {| UserID := 7; LastMessage := 900 |}.

Definition text (t : string) (sender : option Z) : telebot.Message :=
  {| telebot.Text := t;
     telebot.Sender := option_map telebot.Build_User sender;
     telebot.UserJoined := None;
     telebot.UserLeft := None |}.

Definition leaving (member : Z) : telebot.Message :=
  {| telebot.Text := "";
     telebot.Sender := None;
     telebot.UserJoined := None;
     telebot.UserLeft := Some (telebot.Build_User member) |}.

Definition update (m : telebot.Message) : telebot.Update :=
  {| telebot.Message_ := Some m |}.

End Cases.

(** ** Reading the settings: [stringEnv], [intEnv], [durationEnv]

    The three readers run before anything else and end the process with
    [log.Fatalf] on a bad setting, so they are modelled by their result
    alone: the value read, or the call of [log.Fatalf] that ends the
    process. *)

Inductive NumErrorKind : Type := ErrSyntax | ErrRange.

(** [*strconv.NumError]. *)
Record NumError : Type := { Func : string; Num : string; Err : NumErrorKind }.

(** The error handed to [log.Fatalf]. *)
Inductive Cause : Type :=
| of_NumError (e : NumError)
| of_error (e : error).

Inductive Startup (A : Type) : Type :=
| Loaded (a : A)
| Fatalf (err : option Cause) (format : string) (args : list string).
Arguments Loaded {A} a.
Arguments Fatalf {A} err format args.

(** The value of a decimal digit. *)
Definition digit (c : ascii) : option Z :=
  let n := Z.of_N (N_of_ascii c) in
  if (48 <=? n) && (n <=? 57) then Some (n - 48) else None.

Definition maxUint64 : Z := 2 ^ 64 - 1.

(** The loop of [strconv.ParseUint(s, 10, 64)], [n] being the number read
    so far: a byte that is no digit is a syntax error, a number that
    leaves [uint64] a range error, whichever comes first. *)
Fixpoint ParseUint_loop (s : string) (n : Z) : Z + NumErrorKind :=
  match s with
  | EmptyString => inl n
  | String.String c s' =>
      match digit c with
      | None => inr ErrSyntax
      | Some d =>
          if maxUint64 / 10 + 1 <=? n then inr ErrRange
          else
            let n1 := n * 10 + d in
            if maxUint64 <? n1 then inr ErrRange else ParseUint_loop s' n1
      end
  end.

(** [strconv.Atoi] where [int] has 64 bits: an optional sign, then at
    least one digit, the value within [int64].  (Its fast path for short
    strings accepts the same strings with the same results.) *)
Definition Atoi (s : string) : Z + NumError :=
  let fail kind := inr {| Func := "Atoi"; Num := s; Err := kind |} in
  match s with
  | EmptyString => fail ErrSyntax
  | String.String c s' =>
      let neg := Ascii.eqb c "-" in
      let body := if Ascii.eqb c "+" || neg then s' else s in
      match body with
      | EmptyString => fail ErrSyntax
      | _ =>
          match ParseUint_loop body 0 with
          | inr kind => fail kind
          | inl un =>
              if neg then
                if 2 ^ 63 <? un then fail ErrRange else inl (- un)
              else
                if 2 ^ 63 <=? un then fail ErrRange else inl un
          end
      end
  end.

Section Settings.
(** [os.Getenv]: the empty string for a variable that is not set. *)
Variable Getenv : string -> string.
(** [time.ParseDuration]. *)
Variable ParseDuration : string -> Z + error.

Definition stringEnv (key : string) : Startup string :=
  let value := Getenv key in
  if String.eqb value "" then Fatalf None "no env %q specified" [key]
  else Loaded value.

Definition intEnv (key : string) : Startup Z :=
  match stringEnv key with
  | Fatalf err format args => Fatalf err format args
  | Loaded value =>
      match Atoi value with
      | inr err => Fatalf (Some (of_NumError err)) "string to int: %s" [key]
      | inl result => Loaded result
      end
  end.

Definition durationEnv (key : string) : Startup Z :=
  match stringEnv key with
  | Fatalf err format args => Fatalf err format args
  | Loaded value =>
      match ParseDuration value with
      | inr err =>
          Fatalf (Some (of_error err)) "parse duration: %s for %s" [value; key]
      | inl duration => Loaded duration
      end
  end.

End Settings.

(** A string of decimal digits. *)
Fixpoint all_digits (s : string) : bool :=
  match s with
  | EmptyString => true
  | String.String c s' =>
      match digit c with
      | None => false
      | Some _ => all_digits s'
      end
  end.

(** ** The calls of one ban and of one turn of the scanner's loop *)



(** * Theorems *)

(** ** Traces and frames *)

Lemma extend_nil (w : World) : extend w [] = w.
Proof. destruct w; unfold extend; cbn; now rewrite app_nil_r. Qed.

Lemma extend_extend (w : World) (d1 d2 : list Event) :
  extend (extend w d1) d2 = extend w (d1 ++ d2).
Proof. unfold extend; cbn; now rewrite app_assoc. Qed.

Lemma record_extend (e : Event) (w : World) (d : list Event) :
  record e (extend w d) = extend w (d ++ [e]).
Proof. unfold record, extend; cbn; now rewrite app_assoc. Qed.

Lemma record_is_extend (e : Event) (w : World) : record e w = extend w [e].
Proof. reflexivity. Qed.

Lemma trace_extend (w : World) (d : list Event) : trace (extend w d) = trace w ++ d.
Proof. reflexivity. Qed.

Lemma docs_extend (w : World) (d : list Event) : docs (extend w d) = docs w.
Proof. reflexivity. Qed.

Create Rewrite HintDb world.
#[local] Hint Rewrite record_extend extend_extend trace_extend docs_extend : world.

(** Rewrites every recorded call into one [extend] of the starting world. *)
Ltac tidy :=
  repeat rewrite record_is_extend;
  autorewrite with world;
  repeat rewrite <- app_assoc;
  cbn [app].

(** ** The ban action *)

Section Ban.
Variable E : Env.
Variable watcher : Watcher.
Variable user : Z.
Variable w : World.

(** What the first request sends and what comes back. *)
Let t1 : Z := clock E (trace w).
Let p1 : telebot.Params :=
  banParams (telebot.Recipient (chat watcher)) user (telebot.ForeverAt t1).
Let r1 : json.text * option error :=
  api_Raw E (trace w ++ [Now t1]) "banChatMember" p1.
Let first : list Event := [Now t1; BotRaw "banChatMember" p1 (fst r1) (snd r1)].

(** The whole of [ban], branch by branch. *)
Lemma ban_unfolded :
  ban E watcher user w =
  match snd r1 with
  | None => (Ret None, extend w first)
  | Some banErr =>
      match json.Unmarshal (fst r1) with
      | None => (Ret (Some banErr), extend w first)
      | Some migrations =>
          let id := json.MigrateToChatID (json.Parameters migrations) in
          if id =? 0 then (Ret None, extend w first)
          else
            let t2 := clock E (trace w ++ first) in
            let p2 := banParams (fmt.Sprint id) user (telebot.ForeverAt t2) in
            let r2 :=
              api_Raw E (trace w ++ first ++ [Now t2]) "banChatMember" p2 in
            (Ret (snd r2),
             extend w (first ++
                       [Now t2; BotRaw "banChatMember" p2 (fst r2) (snd r2)]))
      end
  end.
Proof.
  unfold ban, telebot_Forever, time_Now, bot_Raw, bind, ret.
  subst first r1 p1 t1. cbn [trace record].
  destruct (api_Raw E (trace w ++ _) _ _) as [data [banErr|]];
    cbn [fst snd]; [|now tidy].
  destruct (json.Unmarshal data) as [migrations|]; [|now tidy].
  destruct (json.MigrateToChatID (json.Parameters migrations) =? 0);
    cbn [negb]; [now tidy|].
  cbn zeta. cbn [fst snd trace record app].
  repeat rewrite <- app_assoc. cbn [app].
  destruct (api_Raw E _ _ _) as [data2 err2]. cbn [fst snd]. now tidy.
Qed.

(** When the body of a failed request cannot be decoded, the failure is
    returned as it came. *)
Lemma ban_undecodable_returns_failure (banErr : error) :
  snd r1 = Some banErr ->
  json.Unmarshal (fst r1) = None ->
  ban E watcher user w = (Ret (Some banErr), extend w first).
Proof. intros H1 H2. rewrite ban_unfolded, H1, H2. reflexivity. Qed.

(** When the body decodes and names no new chat, [ban] falls through to
    its closing [return nil]. *)
Lemma ban_without_directive_returns_nil (banErr : error) (m : json.Migrations) :
  snd r1 = Some banErr ->
  json.Unmarshal (fst r1) = Some m ->
  json.MigrateToChatID (json.Parameters m) = 0 ->
  ban E watcher user w = (Ret None, extend w first).
Proof. intros H1 H2 H3. rewrite ban_unfolded, H1, H2. cbn zeta. rewrite H3. reflexivity. Qed.

End Ban.

(** C1.  "When the first ban request fails and its error body either
    decodes without a migration directive or does not decode, the removal
    action returns that failure" does not hold on the first of the two
    cases.  Telegram refuses the ban of member 7 in chat -100 with an
    ordinary error body; the body decodes, names no new chat, and [ban]
    reaches its closing [return nil]: the caller is told the ban went
    through.  (The other case holds: [ban_undecodable_returns_failure].) *)
Theorem ban_swallows_failure_without_directive :
  ban (Scenario.env (Scenario.clock_from 1000) Scenario.healthy Scenario.raw_refuses)
      Scenario.watcher 7 Scenario.empty
  = (Ret None,
     extend Scenario.empty
       [Now (time.FromUnix 1000);
        BotRaw "banChatMember"
               [("chat_id", "-100"); ("user_id", "7"); ("until_date", "31709800")]%string
               Scenario.body_refused (Some Scenario.refused)]).
Proof. vm_compute. reflexivity. Qed.



(** ** Frames: the scanner's building blocks leave the store alone *)

Lemma frames_ret {A : Type} (a : A) : frames (ret a).
Proof. intro w. exists []. cbn. now rewrite extend_nil. Qed.

Lemma frames_exit {A : Type} (c : Z) : frames (@exit A c).
Proof. intro w. exists []. cbn. now rewrite extend_nil. Qed.

Lemma frames_emit (e : Event) : frames (emit e).
Proof. intro w. now exists [e]. Qed.

Lemma frames_bind {A B : Type} (m : M A) (k : A -> M B) :
  frames m -> (forall a, frames (k a)) -> frames (bind m k).
Proof.
  intros Hm Hk w. unfold bind. destruct (Hm w) as [d1 H1].
  destruct (m w) as [[a|c|] w1]; cbn [snd] in *; subst w1.
  - destruct (Hk a (extend w d1)) as [d2 H2]. exists (d1 ++ d2).
    now rewrite H2, extend_extend.
  - now exists d1.
  - now exists d1.
Qed.

Lemma frames_range {A : Type} (body : A -> M unit) (l : list A) :
  (forall a, frames (body a)) -> frames (range l body).
Proof.
  intro Hb. induction l as [|a l IH]; cbn [range].
  - apply frames_ret.
  - apply frames_bind; auto.
Qed.

Section Frames.
Variable E : Env.

Lemma frames_time_Now : frames (time_Now E).
Proof. intro w. now exists [Now (clock E (trace w))]. Qed.

Lemma frames_bot_Raw (method : string) (params : telebot.Params) :
  frames (bot_Raw E method params).
Proof. intro w. unfold bot_Raw. cbn [snd]. eexists. apply record_is_extend. Qed.

Lemma frames_store_Count (sel : bson.M) : frames (store_Count E sel).
Proof.
  intro w. unfold store_Count.
  destruct (store_fault E (trace w)) as [[e k]|]; cbn [snd];
    eexists; apply record_is_extend.
Qed.

Lemma frames_store_All (sel : bson.M) (sorted : bool) : frames (store_All E sel sorted).
Proof.
  intro w. unfold store_All.
  destruct (store_fault E (trace w)) as [[e k]|]; cbn [snd];
    eexists; apply record_is_extend.
Qed.

Lemma frames_telebot_Forever : frames (telebot_Forever E).
Proof.
  apply frames_bind; [apply frames_time_Now | intro; apply frames_ret].
Qed.

Lemma frames_cutoff (watcher : Watcher) : frames (cutoff E watcher).
Proof.
  apply frames_bind; [apply frames_time_Now | intro; apply frames_ret].
Qed.

Lemma frames_ban (watcher : Watcher) (user : Z) : frames (ban E watcher user).
Proof.
  intro w. pose proof (ban_unfolded E watcher user w) as U. cbv zeta in U.
  rewrite U.
  destruct (snd (api_Raw E _ _ _)); [|now eexists].
  destruct (json.Unmarshal _); [|now eexists].
  destruct (_ =? 0); now eexists.
Qed.

Lemma frames_kick (watcher : Watcher) (user : User) : frames (kick E watcher user).
Proof.
  unfold kick, log_Infof, log_Errorf.
  apply frames_bind; [apply frames_emit|intros _].
  apply frames_bind; [apply frames_ban|intros [e|]].
  - apply frames_emit.
  - apply frames_ret.
Qed.

Lemma frames_WatchKick_cycle (watcher : Watcher) : frames (WatchKick_cycle E watcher).
Proof.
  unfold WatchKick_cycle, log_Fatalf, log_Infof, time_Sleep.
  apply frames_bind; [apply frames_cutoff|intros gt].
  apply frames_bind; [apply frames_store_Count|intros [since err]].
  apply frames_bind.
  - destruct err; [|apply frames_ret].
    apply frames_bind; [apply frames_emit|intros _; apply frames_exit].
  - intros _. destruct (since =? 0).
    + apply frames_bind; [apply frames_emit|intros _; apply frames_emit].
    + apply frames_bind; [apply frames_cutoff|intros lt].
      apply frames_bind; [apply frames_store_All|intros [users err']].
      apply frames_bind; [|intros _; apply frames_emit].
      apply frames_range. intro u. apply frames_kick.
Qed.

Lemma frames_WatchKick (n : nat) (watcher : Watcher) : frames (WatchKick E n watcher).
Proof.
  induction n as [|n IH]; cbn [WatchKick].
  - apply frames_ret.
  - apply frames_bind; [apply frames_WatchKick_cycle|intros _; exact IH].
Qed.

End Frames.

(** ** The eviction scanner *)

Section Scanner.
Variable E : Env.
Variable watcher : Watcher.

Lemma ban_sends_request (user : Z) (w : World) :
  exists (err : option error) (e : Event) (rest : list Event),
    ban E watcher user w = (Ret err, extend w (Now (clock E (trace w)) :: e :: rest))
    /\ requests_ban watcher user e.
Proof.
  pose proof (ban_unfolded E watcher user w) as U. cbv zeta in U. rewrite U.
  destruct (snd (api_Raw E _ _ _)) as [banErr|];
    [|eexists _, _, []; split; [reflexivity|now eexists _, _, _]].
  destruct (json.Unmarshal _) as [m|];
    [|eexists _, _, []; split; [reflexivity|now eexists _, _, _]].
  destruct (_ =? 0);
    eexists _, _, _; (split; [reflexivity|now eexists _, _, _]).
Qed.

Lemma kick_sends_request (user : User) (w : World) :
  exists delta : list Event,
    kick E watcher user w = (Ret tt, extend w delta)
    /\ Exists (requests_ban watcher (UserID user)) delta.
Proof.
  unfold kick, log_Infof, log_Errorf, emit, bind.
  destruct (ban_sends_request (UserID user)
              (record (Log Info None "kick %v" [UserID user]) w))
    as (err & e & rest & Hb & He).
  rewrite Hb. destruct err as [x|]; unfold ret; tidy;
    (eexists; split; [reflexivity|]);
    apply Exists_cons_tl, Exists_cons_tl, Exists_cons_hd; exact He.
Qed.

(** The loop over the candidates asks for the ban of each of them. *)
Lemma range_kick_sends_requests (users : list User) (w : World) :
  exists delta : list Event,
    range users (kick E watcher) w = (Ret tt, extend w delta)
    /\ forall u, In u users -> Exists (requests_ban watcher (UserID u)) delta.
Proof.
  revert w. induction users as [|u users IH]; intro w; cbn [range].
  - exists []. unfold ret. rewrite extend_nil. split; [reflexivity|]. intros ? [].
  - unfold bind. destruct (kick_sends_request u w) as (d1 & Hk & H1). rewrite Hk.
    destruct (IH (extend w d1)) as (d2 & Hr & H2). rewrite Hr, extend_extend.
    exists (d1 ++ d2). split; [reflexivity|].
    intros v [<-|Hv]; apply Exists_app; [left; exact H1|right; auto].
Qed.

Variable w : World.

(** The first query of a cycle. *)
Let t1 : Z := clock E (trace w).
Let gt : Z := cutoffAt watcher t1.
Let since : Z := mgo.Count (bson.last_message_gt gt) (docs w).
Let counted : list Event := [Now t1; StoreCount (bson.last_message_gt gt) since None].

(** The second query of a cycle that gets that far. *)
Let t2 : Z := clock E (trace w ++ counted).
Let lt : Z := cutoffAt watcher t2.
Let stale : list User := mgo.All (bson.last_message_lt lt) (docs w).

(** A cycle, branch by branch. *)
Lemma WatchKick_cycle_unfolded :
  WatchKick_cycle E watcher w =
  match store_fault E (trace w ++ [Now t1]) with
  | Some (e, _) =>
      (Exit 1,
       extend w [Now t1; StoreCount (bson.last_message_gt gt) 0 (Some e);
                 Log Fatal (Some e) "find messages" []])
  | None =>
      if since =? 0 then
        (Ret tt,
         extend w (counted ++
                   [Log Info None "no messages since %v" [duration watcher];
                    Sleep interval]))
      else
        let fault := store_fault E (trace w ++ counted ++ [Now t2]) in
        let users :=
          match fault with
          | Some (_, k) => firstn k stale
          | None => stale
          end in
        (range users (kick E watcher) ;; time_Sleep interval)
          (extend w (counted ++
                     [Now t2;
                      StoreAll (bson.last_message_lt lt) false users
                               (option_map fst fault)]))
  end.
Proof.
  unfold WatchKick_cycle, cutoff, time_Now, store_Count, log_Fatalf, log_Infof,
    time_Sleep, emit, exit.
  unfold bind at 1 2 3 4. unfold ret at 1. cbn [trace record docs].
  fold t1. fold gt.
  destruct (store_fault E (trace w ++ [Now t1])) as [[e k]|].
  - unfold bind, ret. now tidy.
  - fold since. unfold ret at 1. destruct (since =? 0).
    + unfold bind. now tidy.
    + unfold bind at 1 2 3. unfold ret at 1. unfold store_All.
      cbn [trace record docs]. subst counted. repeat rewrite <- app_assoc.
      cbn [app]. fold t2. fold lt. fold stale.
      destruct (store_fault E _) as [[e k]|]; cbn [option_map fst]; now tidy.
Qed.

(** A cycle that gets past the guard: the stale query, one ban request
    for each member it returned, then the sleep. *)
Lemma WatchKick_cycle_scans :
  store_fault E (trace w ++ [Now t1]) = None ->
  since <> 0 ->
  let fault := store_fault E (trace w ++ counted ++ [Now t2]) in
  let users :=
    match fault with
    | Some (_, k) => firstn k stale
    | None => stale
    end in
  exists bans : list Event,
    WatchKick_cycle E watcher w =
    (Ret tt,
     extend w (counted ++
               [Now t2;
                StoreAll (bson.last_message_lt lt) false users (option_map fst fault)]
               ++ bans ++ [Sleep interval]))
    /\ forall u, In u users -> Exists (requests_ban watcher (UserID u)) bans.
Proof.
  intros H1 H2 fault users. rewrite WatchKick_cycle_unfolded, H1.
  destruct (Z.eqb_spec since 0) as [|_]; [contradiction|].
  cbv zeta. fold fault. fold users.
  destruct (range_kick_sends_requests users
              (extend w (counted ++
                         [Now t2;
                          StoreAll (bson.last_message_lt lt) false users
                                   (option_map fst fault)])))
    as (bans & Hr & Hb).
  exists bans. split; [|exact Hb].
  unfold bind. rewrite Hr. unfold time_Sleep, emit. tidy. reflexivity.
Qed.

End Scanner.

(** A failing count query ends the process: the line is logged at the
    fatal level and [os.Exit(1)] follows. *)
Lemma WatchKick_cycle_count_failure_is_fatal
      (E : Env) (watcher : Watcher) (w : World) (e : error) (k : nat) :
  store_fault E (trace w ++ [Now (clock E (trace w))]) = Some (e, k) ->
  WatchKick_cycle E watcher w =
  (Exit 1,
   extend w [Now (clock E (trace w));
             StoreCount (bson.last_message_gt (cutoffAt watcher (clock E (trace w))))
                        0 (Some e);
             Log Fatal (Some e) "find messages" []]).
Proof.
  intro H. pose proof (WatchKick_cycle_unfolded E watcher w) as U.
  cbv zeta in U. rewrite U, H. reflexivity.
Qed.

(** C3.  In a scan cycle that finds no record newer than the cutoff, the
    scanner asks the store for no stale members and sends no ban request,
    whatever the store holds; when the count query itself succeeds the
    cycle is just the count, one log line and the sleep. *)
Theorem WatchKick_cycle_skipped_when_none_active
        (E : Env) (watcher : Watcher) (w : World) :
  let t := clock E (trace w) in
  let threshold := cutoffAt watcher t in
  mgo.Count (bson.last_message_gt threshold) (docs w) = 0 ->
  exists (r : Outcome unit) (delta : list Event),
    WatchKick_cycle E watcher w = (r, extend w delta)
    /\ existsb is_stale_query delta = false
    /\ existsb is_removal delta = false
    /\ (store_fault E (trace w ++ [Now t]) = None ->
        r = Ret tt
        /\ delta = [Now t;
                    StoreCount (bson.last_message_gt threshold) 0 None;
                    Log Info None "no messages since %v" [duration watcher];
                    Sleep interval]).
Proof.
  intros t threshold H. subst t threshold.
  pose proof (WatchKick_cycle_unfolded E watcher w) as U. cbv zeta in U.
  rewrite U, H. clear U. cbn [Z.eqb app].
  destruct (store_fault E _) as [[e k]|].
  - eexists _, _. repeat split; try reflexivity; discriminate.
  - eexists _, _. repeat split; reflexivity.
Qed.

Lemma WatchKick_cycle_skipped_when_none_active_witness :
  let E := Scenario.env (Scenario.clock_from 200000) Scenario.healthy
                        Scenario.raw_accepts in
  let w := Scenario.stored [{| UserID := 1; LastMessage := 0 |}] in
  mgo.All (bson.last_message_lt 113600) (docs w) <> []
  /\ exists (r : Outcome unit) (delta : list Event),
      WatchKick_cycle E Scenario.watcher w = (r, extend w delta)
      /\ existsb is_stale_query delta = false
      /\ existsb is_removal delta = false
      /\ (store_fault E (trace w ++ [Now (time.FromUnix 200000)]) = None ->
          r = Ret tt
          /\ delta = [Now (time.FromUnix 200000);
                      StoreCount (bson.last_message_gt 113600) 0 None;
                      Log Info None "no messages since %v" [Scenario.day];
                      Sleep interval]).
Proof.
  split; [discriminate|].
  exact (WatchKick_cycle_skipped_when_none_active
           (Scenario.env (Scenario.clock_from 200000) Scenario.healthy
                         Scenario.raw_accepts)
           Scenario.watcher
           (Scenario.stored [{| UserID := 1; LastMessage := 0 |}])
           eq_refl).
Defined.

(** C4, as stated, fails: the scanner's count leaves out a record whose
    [last_message] equals the cutoff.  With a one-day limit and the clock
    at 86500 s the cutoff is 100; the one record of the store was last
    active at 100, the count the specification describes is 1, the count
    the scanner gets is 0, and the cycle is skipped. *)
Lemma scanner_count_leaves_out_boundary_record :
  let E := Scenario.env (Scenario.clock_from 86500) Scenario.healthy
                        Scenario.raw_accepts in
  let w := Scenario.stored [{| UserID := 1; LastMessage := 100 |}] in
  count_active_spec 100 (docs w) = 1
  /\ WatchKick_cycle E Scenario.watcher w =
     (Ret tt,
      extend w [Now (time.FromUnix 86500);
                StoreCount (bson.last_message_gt 100) 0 None;
                Log Info None "no messages since %v" [Scenario.day];
                Sleep interval]).
Proof. split; vm_compute; reflexivity. Qed.

(** C4, amended.  For every store and every cutoff, the count the scanner
    asks for is the number of records whose [last_message] is strictly
    greater than the cutoff; a record whose [last_message] equals the
    cutoff is not among them. *)
Theorem scanner_counts_strictly_newer
        (E : Env) (watcher : Watcher) (w : World) :
  let t := clock E (trace w) in
  let threshold := cutoffAt watcher t in
  store_fault E (trace w ++ [Now t]) = None ->
  (exists (r : Outcome unit) (rest : list Event),
      WatchKick_cycle E watcher w =
      (r, extend w (Now t
                    :: StoreCount (bson.last_message_gt threshold)
                         (Z.of_nat (List.length (newer_than threshold (docs w))))
                         None
                    :: rest)))
  /\ forall u : User,
      LastMessage u = threshold -> ~ In u (newer_than threshold (docs w)).
Proof.
  intros t threshold H. subst t threshold. split.
  - destruct (Z.eqb_spec
                (mgo.Count (bson.last_message_gt
                              (cutoffAt watcher (clock E (trace w)))) (docs w)) 0)
      as [Z0|NZ].
    + pose proof (WatchKick_cycle_unfolded E watcher w) as U. cbv zeta in U.
      apply Z.eqb_eq in Z0. rewrite U, H, Z0. cbn [app].
      eexists _, _. reflexivity.
    + destruct (WatchKick_cycle_scans E watcher w H NZ) as (bans & Hc & _).
      rewrite Hc. cbn [app]. eexists _, _. reflexivity.
  - intros u Hu Hin. apply filter_In in Hin. destruct Hin as [_ Hin].
    rewrite Hu in Hin. now rewrite Z.ltb_irrefl in Hin.
Qed.

Lemma scanner_counts_strictly_newer_witness :
  let E := Scenario.env (Scenario.clock_from 86500) Scenario.healthy
                        Scenario.raw_accepts in
  let w := Scenario.stored [{| UserID := 1; LastMessage := 100 |};
                            {| UserID := 2; LastMessage := 101 |}] in
  (exists (r : Outcome unit) (rest : list Event),
      WatchKick_cycle E Scenario.watcher w =
      (r, extend w (Now (time.FromUnix 86500)
                    :: StoreCount (bson.last_message_gt 100) 1 None
                    :: rest)))
  /\ forall u : User, LastMessage u = 100 -> ~ In u (newer_than 100 (docs w)).
Proof.
  exact (scanner_counts_strictly_newer
           (Scenario.env (Scenario.clock_from 86500) Scenario.healthy
                         Scenario.raw_accepts)
           Scenario.watcher
           (Scenario.stored [{| UserID := 1; LastMessage := 100 |};
                             {| UserID := 2; LastMessage := 101 |}])
           eq_refl).
Defined.

(** C7.  "A failure of either store query of a scan is fatal; neither is
    silently ignored" does not hold for the second query: what [All]
    returns is assigned to [err] and never looked at.  Here the count
    succeeds (member 2 is active), the stale query fails, and the cycle
    goes on to its sleep: no line is logged, the process does not exit.
    (The count query's failure is fatal:
    [WatchKick_cycle_count_failure_is_fatal].) *)
Theorem WatchKick_cycle_ignores_stale_query_failure :
  let E := Scenario.env (Scenario.clock_from 200000) Scenario.fails_after_first
                        Scenario.raw_accepts in
  let w := Scenario.stored [{| UserID := 1; LastMessage := 0 |};
                            {| UserID := 2; LastMessage := 200000 |}] in
  WatchKick_cycle E Scenario.watcher w =
  (Ret tt,
   extend w [Now (time.FromUnix 200000);
             StoreCount (bson.last_message_gt 113600) 1 None;
             Now (time.FromUnix 200000);
             StoreAll (bson.last_message_lt 113600) false []
                      (Some Scenario.unreachable);
             Sleep interval]).
Proof. vm_compute. reflexivity. Qed.

(** C9, as stated, fails in its last part: a member who stays stale and
    stays in the store is not banned again in a cycle the guard skips.
    Member 1 was last active at 0, member 2 at 13601; the limit is one
    day.  The cycle at 100000 s (cutoff 13600) bans member 1.  An hour
    later the cutoff is 17200, nobody is newer, and the cycle sends
    nothing, though member 1's record is still there and still stale. *)
Lemma stale_member_not_banned_in_skipped_cycle :
  let E := Scenario.env (Scenario.clock_from 100000) Scenario.healthy
                        Scenario.raw_accepts in
  let a := {| UserID := 1; LastMessage := 0 |} in
  let w0 := Scenario.stored [a; {| UserID := 2; LastMessage := 13601 |}] in
  let w1 := snd (WatchKick_cycle E Scenario.watcher w0) in
  let w2 := snd (WatchKick_cycle E Scenario.watcher w1) in
  ban_requests (trace w1) =
    [[("chat_id", "-100"); ("user_id", "1"); ("until_date", "31808800")]%string]
  /\ In a (docs w1)
  /\ LastMessage a < cutoffAt Scenario.watcher (clock E (trace w1))
  /\ ban_requests (trace w2) = ban_requests (trace w1).
Proof.
  cbv zeta. repeat split; try (vm_compute; reflexivity).
  left. reflexivity.
Qed.

(** C9, amended.  The scanner never changes the store: no number of
    cycles does, and neither does a ban; so a stale member's record stays
    in place.  In every cycle that gets past the guard (the count query
    succeeds with a non-zero count) and whose stale query succeeds, every
    member whose record is older than the cutoff is sent a ban request. *)
Theorem scanner_frames_store_and_bans_stale
        (E : Env) (watcher : Watcher) :
  (forall (n : nat) (w : World), docs (snd (WatchKick E n watcher w)) = docs w)
  /\ (forall (user : Z) (w : World), docs (snd (ban E watcher user w)) = docs w)
  /\ (forall (w : World) (u : User),
        let t1 := clock E (trace w) in
        let since := mgo.Count (bson.last_message_gt (cutoffAt watcher t1)) (docs w) in
        let counted :=
          [Now t1; StoreCount (bson.last_message_gt (cutoffAt watcher t1)) since None] in
        let t2 := clock E (trace w ++ counted) in
        store_fault E (trace w ++ [Now t1]) = None ->
        since <> 0 ->
        store_fault E (trace w ++ counted ++ [Now t2]) = None ->
        In u (docs w) ->
        LastMessage u < cutoffAt watcher t2 ->
        exists delta : list Event,
          WatchKick_cycle E watcher w = (Ret tt, extend w delta)
          /\ Exists (requests_ban watcher (UserID u)) delta).
Proof.
  split; [|split].
  - intros n w. destruct (frames_WatchKick E n watcher w) as [d ->]. reflexivity.
  - intros user w. destruct (frames_ban E watcher user w) as [d ->]. reflexivity.
  - intros w u t1 since counted t2 F1 NZ F2 Hin Hstale.
    destruct (WatchKick_cycle_scans E watcher w F1 NZ) as (bans & Hc & Hb).
    fold t1 since counted t2 in Hc, Hb. rewrite F2 in Hc, Hb.
    eexists. split; [exact Hc|].
    apply Exists_app. right. apply Exists_cons_tl, Exists_cons_tl.
    apply Exists_app. left. apply Hb.
    apply filter_In. split; [exact Hin|]. cbn. now apply Z.ltb_lt.
Qed.

Lemma scanner_frames_store_and_bans_stale_witness :
  let E := Scenario.env (Scenario.clock_from 100000) Scenario.healthy
                        Scenario.raw_accepts in
  let a := {| UserID := 1; LastMessage := 0 |} in
  let w := Scenario.stored [a; {| UserID := 2; LastMessage := 13601 |}] in
  exists delta : list Event,
    WatchKick_cycle E Scenario.watcher w = (Ret tt, extend w delta)
    /\ Exists (requests_ban Scenario.watcher 1) delta.
Proof.
  exact (proj2 (proj2 (scanner_frames_store_and_bans_stale
                         (Scenario.env (Scenario.clock_from 100000) Scenario.healthy
                                       Scenario.raw_accepts)
                         Scenario.watcher))
           (Scenario.stored [{| UserID := 1; LastMessage := 0 |};
                             {| UserID := 2; LastMessage := 13601 |}])
           {| UserID := 1; LastMessage := 0 |}
           eq_refl ltac:(discriminate) eq_refl
           (or_introl eq_refl) eq_refl).
Defined.

(** ** The activity recorder *)

Lemma Remove_absent (id : Z) (d : list User) :
  (forall u, In u d -> UserID u <> id) -> mgo.Remove (bson.user_id id) d = None.
Proof.
  induction d as [|u d IH]; intro H; cbn [mgo.Remove mgo.matches]; [reflexivity|].
  destruct (Z.eqb_spec (UserID u) id) as [Heq|_].
  - exfalso. apply (H u); [now left|exact Heq].
  - rewrite IH; [reflexivity|]. intros v Hv. apply H. now right.
Qed.

Section Recorder.
Variable E : Env.
Variable watcher : Watcher.
Variable w : World.

(** [updateLastMessage], branch by branch. *)
Lemma updateLastMessage_unfolded (user : Z) :
  let now := time.Unix (clock E (trace w)) in
  let logged :=
    [Now (clock E (trace w)); Log Info None "update user: %v now: %v" [user; now]] in
  updateLastMessage E watcher user w =
  match store_fault E (trace w ++ logged) with
  | Some (e, _) =>
      (Ret (Some (karma_Format e "update user")),
       extend w (logged ++ [StoreUpsert user now (Some e)]))
  | None =>
      (Ret None,
       {| docs := mgo.Upsert user now (docs w);
          trace := trace w ++ logged ++ [StoreUpsert user now None] |})
  end.
Proof.
  unfold updateLastMessage, time_Now, log_Infof, store_Upsert, emit, bind, ret.
  cbn [trace record docs with_docs]. repeat rewrite <- app_assoc. cbn [app].
  destruct (store_fault E _) as [[e k]|]; [now tidy|].
  unfold record, with_docs. cbn [trace docs].
  repeat rewrite <- app_assoc. reflexivity.
Qed.

(** [updateLastMessage] calls upsert once, with the member and the
    seconds of the clock. *)
Lemma updateLastMessage_upserts (user : Z) :
  exists (r : option error) (d : list User) (delta : list Event),
    updateLastMessage E watcher user w =
    (Ret r, {| docs := d; trace := trace w ++ delta |})
    /\ upserts delta = [(user, time.Unix (clock E (trace w)))]
    /\ removes delta = [].
Proof.
  pose proof (updateLastMessage_unfolded user) as U. cbv zeta in U. rewrite U.
  destruct (store_fault E _) as [[e k]|]; eexists _, _, _;
    (split; [reflexivity|split; reflexivity]).
Qed.

Variable update : telebot.Update.
Variable message : telebot.Message.
Hypothesis Hmessage : telebot.Message_ update = Some message.

(** Without a report command in the text, the two copies of [handle]
    are the same function. *)
Lemma handle_is_Legacy_handle :
  is_command (telebot.Text message) = false ->
  handle E watcher update w = Legacy.handle E watcher update w.
Proof.
  intro H. unfold handle, Legacy.handle. rewrite Hmessage, H. reflexivity.
Qed.

(** The member-left branch: one log line and one [Remove]. *)
Lemma Legacy_handle_left (leaver : telebot.User) :
  telebot.UserLeft message = Some leaver ->
  let logged := [Log Info None "remove user: %v now: %v" [telebot.ID leaver]] in
  let sel := bson.user_id (telebot.ID leaver) in
  Legacy.handle E watcher update w =
  match store_fault E (trace w ++ logged) with
  | Some (e, _) =>
      (Ret (Some (karma_Format e "remove user")),
       extend w (logged ++ [StoreRemove sel (Some e)]))
  | None =>
      match mgo.Remove sel (docs w) with
      | Some d =>
          (Ret None,
           {| docs := d; trace := trace w ++ logged ++ [StoreRemove sel None] |})
      | None =>
          (Ret (Some (karma_Format mgo.ErrNotFound "remove user")),
           extend w (logged ++ [StoreRemove sel (Some mgo.ErrNotFound)]))
      end
  end.
Proof.
  intros H logged sel. unfold Legacy.handle. rewrite Hmessage, H.
  unfold log_Infof, store_Remove, emit, bind, ret. cbn [trace record docs].
  subst logged sel.
  destruct (store_fault E _) as [[e k]|]; [tidy; reflexivity|].
  destruct (mgo.Remove _ (docs w)) as [d|]; [|tidy; reflexivity].
  unfold record, with_docs. cbn [trace docs].
  repeat rewrite <- app_assoc. reflexivity.
Qed.

Lemma Legacy_handle_joined (joined : telebot.User) :
  telebot.UserLeft message = None ->
  telebot.UserJoined message = Some joined ->
  Legacy.handle E watcher update w = updateLastMessage E watcher (telebot.ID joined) w.
Proof.
  intros H1 H2. unfold Legacy.handle. now rewrite Hmessage, H1, H2.
Qed.

Lemma Legacy_handle_sender (sender : telebot.User) :
  telebot.UserLeft message = None ->
  telebot.UserJoined message = None ->
  telebot.Sender message = Some sender ->
  Legacy.handle E watcher update w = updateLastMessage E watcher (telebot.ID sender) w.
Proof.
  intros H1 H2 H3. unfold Legacy.handle. now rewrite Hmessage, H1, H2, H3.
Qed.

End Recorder.

(** The loop of [Record] goes on to the next update whatever [handle]
    returned for this one; what it returned is not looked at. *)
Lemma handle_each_goes_on
      (h : Watcher -> telebot.Update -> M (option error)) (watcher : Watcher)
      (update : telebot.Update) (rest : list telebot.Update)
      (w w' : World) (r : option error) :
  h watcher update w = (Ret r, w') ->
  handle_each h watcher (update :: rest) w = handle_each h watcher rest w'.
Proof.
  intro H. unfold handle_each. cbn [range]. unfold bind at 1 2. rewrite H.
  reflexivity.
Qed.

(** C5, as stated, fails in [main.go]: a message whose text is a report
    command takes the report branch and records no activity.  Member 5
    sends "/when"; the store is read, the (empty) report is sent back,
    and no upsert is called. *)
Lemma report_command_is_not_recorded :
  let E := Scenario.env (Scenario.clock_from 1000) Scenario.healthy
                        Scenario.raw_accepts in
  let result := handle E Scenario.watcher
                       (Scenario.message "/when" (Some 5) None None)
                       Scenario.empty in
  result = (Ret None,
            extend Scenario.empty
                   [StoreAll bson.all true [] None; BotSend 5 "" None])
  /\ upserts (trace (snd result)) = [].
Proof. split; vm_compute; reflexivity. Qed.

(** C5, amended.  For every message that carries a sender and no join or
    leave payload, and whose text is not one of the report commands
    "/when" and "q", the recorder calls upsert once, with the sender's id
    and the current time in seconds, and calls no remove.  The older copy
    of the program, which has no report command, does so whatever the
    text. *)
Theorem handle_message_upserts_sender
        (E : Env) (watcher : Watcher) (update : telebot.Update)
        (message : telebot.Message) (sender : telebot.User) (w : World) :
  telebot.Message_ update = Some message ->
  telebot.UserLeft message = None ->
  telebot.UserJoined message = None ->
  telebot.Sender message = Some sender ->
  exists (r : option error) (d : list User) (delta : list Event),
    upserts delta = [(telebot.ID sender, time.Unix (clock E (trace w)))]
    /\ removes delta = []
    /\ (is_command (telebot.Text message) = false ->
        handle E watcher update w = (Ret r, {| docs := d; trace := trace w ++ delta |}))
    /\ Legacy.handle E watcher update w =
       (Ret r, {| docs := d; trace := trace w ++ delta |}).
Proof.
  intros Hm Hl Hj Hs.
  destruct (updateLastMessage_upserts E watcher w (telebot.ID sender))
    as (r & d & delta & Hu & Hup & Hrm).
  exists r, d, delta. split; [exact Hup|]. split; [exact Hrm|].
  pose proof (Legacy_handle_sender E watcher w update message Hm sender Hl Hj Hs) as L.
  split.
  - intro Hc. rewrite (handle_is_Legacy_handle E watcher w update message Hm Hc).
    now rewrite L.
  - now rewrite L.
Qed.

Lemma handle_message_upserts_sender_witness :
  let E := Scenario.env (Scenario.clock_from 1000) Scenario.healthy
                        Scenario.raw_accepts in
  let update := Scenario.message "hello" (Some 5) None None in
  exists (r : option error) (d : list User) (delta : list Event),
    upserts delta = [(5, 1000)]
    /\ removes delta = []
    /\ (is_command "hello" = false ->
        handle E Scenario.watcher update Scenario.empty =
        (Ret r, {| docs := d; trace := trace Scenario.empty ++ delta |}))
    /\ Legacy.handle E Scenario.watcher update Scenario.empty =
       (Ret r, {| docs := d; trace := trace Scenario.empty ++ delta |}).
Proof.
  exact (handle_message_upserts_sender
           (Scenario.env (Scenario.clock_from 1000) Scenario.healthy
                         Scenario.raw_accepts)
           Scenario.watcher
           (Scenario.message "hello" (Some 5) None None)
           {| telebot.Text := "hello"; telebot.Sender := Some (telebot.Build_User 5);
              telebot.UserJoined := None; telebot.UserLeft := None |}
           (telebot.Build_User 5) Scenario.empty
           eq_refl eq_refl eq_refl eq_refl).
Defined.

(** C6, as stated, fails: removing a member the store has no record of
    is an error to [handle].  Member 7 leaves, the store is empty and
    reachable; [Remove] reports [ErrNotFound] and [handle] returns it,
    wrapped as "remove user". *)
Lemma leaving_unknown_member_is_an_error :
  handle (Scenario.env (Scenario.clock_from 1000) Scenario.healthy
                       Scenario.raw_accepts)
         Scenario.watcher (Scenario.message "" None None (Some 7)) Scenario.empty
  = (Ret (Some (karma_Format mgo.ErrNotFound "remove user")),
     extend Scenario.empty
            [Log Info None "remove user: %v now: %v" [7];
             StoreRemove (bson.user_id 7) (Some mgo.ErrNotFound)]).
Proof. vm_compute. reflexivity. Qed.

(** C6, amended.  When a member leaves of whom the store has no record
    (and the store answers), the store is left as it was and [handle]
    returns the store's not-found error, wrapped as "remove user"; the
    loop of the recorder drops that error and goes on with the next
    update.  In [main.go] this is so for every text that is not a report
    command, in the older copy for every text. *)
Theorem handle_left_absent_member_reports_not_found
        (E : Env) (watcher : Watcher) (update : telebot.Update)
        (message : telebot.Message) (leaver : telebot.User) (w : World) :
  let logged := [Log Info None "remove user: %v now: %v" [telebot.ID leaver]] in
  let outcome :=
    (Ret (Some (karma_Format mgo.ErrNotFound "remove user")),
     extend w (logged ++ [StoreRemove (bson.user_id (telebot.ID leaver))
                                      (Some mgo.ErrNotFound)])) in
  telebot.Message_ update = Some message ->
  telebot.UserLeft message = Some leaver ->
  (forall u, In u (docs w) -> UserID u <> telebot.ID leaver) ->
  store_fault E (trace w ++ logged) = None ->
  (is_command (telebot.Text message) = false ->
   handle E watcher update w = outcome
   /\ forall rest,
       handle_each (handle E) watcher (update :: rest) w =
       handle_each (handle E) watcher rest (snd outcome))
  /\ Legacy.handle E watcher update w = outcome
  /\ forall rest,
      handle_each (Legacy.handle E) watcher (update :: rest) w =
      handle_each (Legacy.handle E) watcher rest (snd outcome).
Proof.
  intros logged outcome Hm Hl Habsent Hfault.
  assert (L : Legacy.handle E watcher update w = outcome).
  { pose proof (Legacy_handle_left E watcher w update message Hm leaver Hl) as U.
    cbv zeta in U. fold logged in U. rewrite Hfault in U.
    rewrite (Remove_absent _ _ Habsent) in U. exact U. }
  split; [intro Hc; split|split].
  - now rewrite (handle_is_Legacy_handle E watcher w update message Hm Hc).
  - intro rest. apply handle_each_goes_on with (r := Some (karma_Format mgo.ErrNotFound "remove user")).
    now rewrite (handle_is_Legacy_handle E watcher w update message Hm Hc).
  - exact L.
  - intro rest. eapply handle_each_goes_on. exact L.
Qed.

Lemma handle_left_absent_member_reports_not_found_witness :
  let E := Scenario.env (Scenario.clock_from 1000) Scenario.healthy
                        Scenario.raw_accepts in
  let update := Scenario.message "" None None (Some 7) in
  let w := Scenario.stored [{| UserID := 8; LastMessage := 900 |}] in
  let outcome :=
    (Ret (Some (karma_Format mgo.ErrNotFound "remove user")),
     extend w [Log Info None "remove user: %v now: %v" [7];
               StoreRemove (bson.user_id 7) (Some mgo.ErrNotFound)]) in
  (is_command "" = false ->
   handle E Scenario.watcher update w = outcome
   /\ forall rest,
       handle_each (handle E) Scenario.watcher (update :: rest) w =
       handle_each (handle E) Scenario.watcher rest (snd outcome))
  /\ Legacy.handle E Scenario.watcher update w = outcome
  /\ forall rest,
      handle_each (Legacy.handle E) Scenario.watcher (update :: rest) w =
      handle_each (Legacy.handle E) Scenario.watcher rest (snd outcome).
Proof.
  refine (handle_left_absent_member_reports_not_found
            (Scenario.env (Scenario.clock_from 1000) Scenario.healthy
                          Scenario.raw_accepts)
            Scenario.watcher
            (Scenario.message "" None None (Some 7))
            {| telebot.Text := ""; telebot.Sender := None;
               telebot.UserJoined := None;
               telebot.UserLeft := Some (telebot.Build_User 7) |}
            (telebot.Build_User 7)
            (Scenario.stored [{| UserID := 8; LastMessage := 900 |}])
            eq_refl eq_refl _ eq_refl).
  intros u [<-|[]]. cbn. discriminate.
Defined.

(** C8.  "A failure in handling one event is logged and the loop goes on"
    holds in its second half only ([handle_each_goes_on]): [Record] calls
    [handle] and drops what it returns, so the failure is logged nowhere.
    The upsert for member 5 fails and [handle] returns the error; the
    trace of [Record] holds no line above the info level, and the update
    of member 6 is handled next. *)
Theorem Record_drops_handle_failure :
  let E := Scenario.env (Scenario.clock_from 1000) Scenario.fails_first_write
                        Scenario.raw_accepts in
  let first := Scenario.message "hi" (Some 5) None None in
  let second := Scenario.message "yo" (Some 6) None None in
  let result := Record_ E Scenario.watcher [first; second] Scenario.empty in
  fst (handle E Scenario.watcher first (record (BotSetCommands None) Scenario.empty))
  = Ret (Some (karma_Format Scenario.unreachable "update user"))
  /\ result =
     (Ret tt,
      {| docs := [{| UserID := 6; LastMessage := 1000 |}];
         trace := [BotSetCommands None;
                   Now (time.FromUnix 1000);
                   Log Info None "update user: %v now: %v" [5; 1000];
                   StoreUpsert 5 1000 (Some Scenario.unreachable);
                   Now (time.FromUnix 1000);
                   Log Info None "update user: %v now: %v" [6; 1000];
                   StoreUpsert 6 1000 None;
                   Log Info None "telekick started" []] |})
  /\ existsb is_failure_log (trace (snd result)) = false.
Proof. cbv zeta. repeat split; vm_compute; reflexivity. Qed.

(** C10, as stated, fails in [main.go], where the report command comes
    before all three: an update with a member-left payload and the text
    "/when" is answered with the report, and no removal is made.  Member
    7's record is still in the store afterwards. *)
Lemma report_command_precedes_leave :
  let E := Scenario.env (Scenario.clock_from 1000) Scenario.healthy
                        Scenario.raw_accepts in
  let w := Scenario.stored [{| UserID := 7; LastMessage := 900 |}] in
  let result := handle E Scenario.watcher
                       (Scenario.message "/when" (Some 5) None (Some 7)) w in
  result = (Ret None,
            extend w [StoreAll bson.all true [{| UserID := 7; LastMessage := 900 |}] None;
                      BotChatByID 7 (inl Scenario.nobody);
                      Now (time.FromUnix 1000);
                      BotSend 5 "@ghost A B 100000000000" None])
  /\ removes (trace (snd result)) = []
  /\ docs (snd result) = [{| UserID := 7; LastMessage := 900 |}].
Proof. cbv zeta. repeat split; vm_compute; reflexivity. Qed.

(** C10, amended.  Among updates whose text is not a report command (in
    the older copy: among all updates), leave comes before join and join
    before sender.  An update with a member-left payload makes the
    recorder log one line and call remove for the member who left, and
    nothing else, whatever sender or joined member it carries.  An update
    with a member-joined payload and no member-left payload makes it call
    upsert once, with the id of the member who joined, whatever sender it
    carries. *)
Theorem handle_leave_before_join_before_sender
        (E : Env) (watcher : Watcher) (update : telebot.Update)
        (message : telebot.Message) (w : World) :
  telebot.Message_ update = Some message ->
  (forall leaver : telebot.User,
      telebot.UserLeft message = Some leaver ->
      exists (r : option error) (err : option error) (d : list User),
        let w' :=
          {| docs := d;
             trace := trace w ++
                      [Log Info None "remove user: %v now: %v" [telebot.ID leaver];
                       StoreRemove (bson.user_id (telebot.ID leaver)) err] |} in
        (is_command (telebot.Text message) = false ->
         handle E watcher update w = (Ret r, w'))
        /\ Legacy.handle E watcher update w = (Ret r, w'))
  /\ (forall joined : telebot.User,
        telebot.UserLeft message = None ->
        telebot.UserJoined message = Some joined ->
        exists (r : option error) (d : list User) (delta : list Event),
          upserts delta = [(telebot.ID joined, time.Unix (clock E (trace w)))]
          /\ removes delta = []
          /\ (is_command (telebot.Text message) = false ->
              handle E watcher update w =
              (Ret r, {| docs := d; trace := trace w ++ delta |}))
          /\ Legacy.handle E watcher update w =
             (Ret r, {| docs := d; trace := trace w ++ delta |})).
Proof.
  intro Hm. split.
  - intros leaver Hl.
    pose proof (Legacy_handle_left E watcher w update message Hm leaver Hl) as U.
    cbv zeta in U.
    assert (exists r err d,
               Legacy.handle E watcher update w =
               (Ret r,
                {| docs := d;
                   trace := trace w ++
                            [Log Info None "remove user: %v now: %v" [telebot.ID leaver];
                             StoreRemove (bson.user_id (telebot.ID leaver)) err] |}))
      as (r & err & d & L).
    { rewrite U. destruct (store_fault E _) as [[e k]|];
        [|destruct (mgo.Remove _ _)]; eexists _, _, _; reflexivity. }
    exists r, err, d. cbv zeta. split; [intro Hc|exact L].
    now rewrite (handle_is_Legacy_handle E watcher w update message Hm Hc).
  - intros joined Hl Hj.
    destruct (updateLastMessage_upserts E watcher w (telebot.ID joined))
      as (r & d & delta & Hu & Hup & Hrm).
    exists r, d, delta. split; [exact Hup|]. split; [exact Hrm|].
    pose proof (Legacy_handle_joined E watcher w update message Hm joined Hl Hj) as L.
    split; [intro Hc|now rewrite L].
    rewrite (handle_is_Legacy_handle E watcher w update message Hm Hc).
    now rewrite L.
Qed.

Lemma handle_leave_before_join_before_sender_witness :
  let E := Scenario.env (Scenario.clock_from 1000) Scenario.healthy
                        Scenario.raw_accepts in
  let w := Scenario.stored [{| UserID := 7; LastMessage := 900 |}] in
  let leaving := Scenario.message "bye" (Some 5) (Some 6) (Some 7) in
  let joining := Scenario.message "hi" (Some 5) (Some 6) None in
  (exists (r : option error) (err : option error) (d : list User),
      let w' :=
        {| docs := d;
           trace := trace w ++
                    [Log Info None "remove user: %v now: %v" [7];
                     StoreRemove (bson.user_id 7) err] |} in
      (is_command "bye" = false ->
       handle E Scenario.watcher leaving w = (Ret r, w'))
      /\ Legacy.handle E Scenario.watcher leaving w = (Ret r, w'))
  /\ (exists (r : option error) (d : list User) (delta : list Event),
        upserts delta = [(6, 1000)]
        /\ removes delta = []
        /\ (is_command "hi" = false ->
            handle E Scenario.watcher joining w =
            (Ret r, {| docs := d; trace := trace w ++ delta |}))
        /\ Legacy.handle E Scenario.watcher joining w =
           (Ret r, {| docs := d; trace := trace w ++ delta |})).
Proof.
  split.
  - exact (proj1 (handle_leave_before_join_before_sender
                    (Scenario.env (Scenario.clock_from 1000) Scenario.healthy
                                  Scenario.raw_accepts)
                    Scenario.watcher
                    (Scenario.message "bye" (Some 5) (Some 6) (Some 7))
                    {| telebot.Text := "bye";
                       telebot.Sender := Some (telebot.Build_User 5);
                       telebot.UserJoined := Some (telebot.Build_User 6);
                       telebot.UserLeft := Some (telebot.Build_User 7) |}
                    (Scenario.stored [{| UserID := 7; LastMessage := 900 |}])
                    eq_refl)
                 (telebot.Build_User 7) eq_refl).
  - exact (proj2 (handle_leave_before_join_before_sender
                    (Scenario.env (Scenario.clock_from 1000) Scenario.healthy
                                  Scenario.raw_accepts)
                    Scenario.watcher
                    (Scenario.message "hi" (Some 5) (Some 6) None)
                    {| telebot.Text := "hi";
                       telebot.Sender := Some (telebot.Build_User 5);
                       telebot.UserJoined := Some (telebot.Build_User 6);
                       telebot.UserLeft := None |}
                    (Scenario.stored [{| UserID := 7; LastMessage := 900 |}])
                    eq_refl)
                 (telebot.Build_User 6) eq_refl eq_refl).
Defined.

(** * Further properties of the program *)

(** ** Observers distribute over the pieces of a trace *)

Lemma ban_requests_app (a b : list Event) :
  ban_requests (a ++ b) = ban_requests a ++ ban_requests b.
Proof.
  induction a as [|e a IH]; [reflexivity|].
  destruct e; cbn [app ban_requests]; rewrite IH; reflexivity.
Qed.

Lemma sleeps_app (a b : list Event) : sleeps (a ++ b) = sleeps a ++ sleeps b.
Proof.
  induction a as [|e a IH]; [reflexivity|].
  destruct e; cbn [app sleeps]; rewrite IH; reflexivity.
Qed.

Lemma chat_lookups_app (a b : list Event) :
  chat_lookups (a ++ b) = chat_lookups a ++ chat_lookups b.
Proof.
  induction a as [|e a IH]; [reflexivity|].
  destruct e; cbn [app chat_lookups]; rewrite IH; reflexivity.
Qed.

Lemma chat_failures_app (a b : list Event) :
  chat_failures (a ++ b) = chat_failures a ++ chat_failures b.
Proof.
  induction a as [|e a IH]; [reflexivity|].
  destruct e as [| | | | | | | | |id [c|x]|]; cbn [app chat_failures];
    rewrite IH; reflexivity.
Qed.

Lemma kicked_app (a b : list Event) : kicked (a ++ b) = kicked a ++ kicked b.
Proof.
  induction a as [|e a IH]; [reflexivity|].
  destruct e as [| |lvl err format args| | | | | | | |]; cbn [app kicked];
    try (rewrite IH; reflexivity).
  destruct lvl, err, args as [|x [|y args]]; try (rewrite IH; reflexivity).
  destruct (String.eqb format "kick %v"); rewrite IH; reflexivity.
Qed.

Lemma firstn_In {A : Type} (x : A) (n : nat) (l : list A) :
  In x (firstn n l) -> In x l.
Proof.
  revert l. induction n as [|n IH]; intros [|y l] H; cbn in H; try contradiction.
  destruct H as [->|H]; [now left|right; auto].
Qed.

Lemma existsb_app_false {A : Type} (f : A -> bool) (a b : list A) :
  existsb f a = false -> existsb f b = false -> existsb f (a ++ b) = false.
Proof. intros Ha Hb. now rewrite existsb_app, Ha, Hb. Qed.

(** ** More on the ban action *)

(** The shape of every run of [ban]: it returns, after one request to the
    configured chat and at most one more. *)
Lemma ban_shape (E : Env) (watcher : Watcher) (user : Z) (w : World) :
  let t1 := clock E (trace w) in
  let p1 := banParams (telebot.Recipient (chat watcher)) user (telebot.ForeverAt t1) in
  exists (r e1 : option error) (d1 : json.text) (rest : list Event),
    ban E watcher user w =
    (Ret r, extend w (Now t1 :: BotRaw "banChatMember" p1 d1 e1 :: rest))
    /\ (rest = []
        \/ exists (t2 X : Z) (d2 : json.text),
            rest = [Now t2;
                    BotRaw "banChatMember"
                           (banParams (fmt.Sprint X) user (telebot.ForeverAt t2))
                           d2 r]).
Proof.
  intros t1 p1. pose proof (ban_unfolded E watcher user w) as U. cbv zeta in U.
  fold t1 in U. fold p1 in U. rewrite U. clear U.
  destruct (snd (api_Raw E _ _ _)) as [banErr|];
    [|eexists _, _, _, []; split; [reflexivity|now left]].
  destruct (json.Unmarshal _) as [m|];
    [|eexists _, _, _, []; split; [reflexivity|now left]].
  destruct (_ =? 0); [eexists _, _, _, []; split; [reflexivity|now left]|].
  eexists _, _, _, _. split; [reflexivity|]. right. now eexists _, _, _.
Qed.

(** X1.  When Telegram accepts the first request, [ban] returns nil after
    that one request: the reply is not decoded and nothing is retried. *)
Theorem ban_success_sends_one_request
        (E : Env) (watcher : Watcher) (user : Z) (w : World) (data : json.text) :
  let t1 := clock E (trace w) in
  let p1 := banParams (telebot.Recipient (chat watcher)) user (telebot.ForeverAt t1) in
  api_Raw E (trace w ++ [Now t1]) "banChatMember" p1 = (data, None) ->
  ban E watcher user w =
  (Ret None, extend w [Now t1; BotRaw "banChatMember" p1 data None]).
Proof.
  intros t1 p1 H. pose proof (ban_unfolded E watcher user w) as U. cbv zeta in U.
  fold t1 in U. fold p1 in U. rewrite H in U. exact U.
Qed.

Lemma ban_success_sends_one_request_witness :
  ban (Scenario.env (Scenario.clock_from 1000) Scenario.healthy Scenario.raw_accepts)
      Scenario.watcher 7 Scenario.empty =
  (Ret None,
   extend Scenario.empty
     [Now (time.FromUnix 1000);
      BotRaw "banChatMember"
             [("chat_id", "-100"); ("user_id", "7"); ("until_date", "31709800")]%string
             Scenario.body_ok None]).
Proof.
  exact (ban_success_sends_one_request
           (Scenario.env (Scenario.clock_from 1000) Scenario.healthy
                         Scenario.raw_accepts)
           Scenario.watcher 7 Scenario.empty Scenario.body_ok eq_refl).
Defined.

Lemma ban_profile (E : Env) (watcher : Watcher) (user : Z) (w : World) :
  exists (r : option error) (delta : list Event) (rest : list telebot.Params),
    ban E watcher user w = (Ret r, extend w delta)
    /\ ban_requests delta =
       banParams (telebot.Recipient (chat watcher)) user
                 (telebot.ForeverAt (clock E (trace w))) :: rest
    /\ (List.length rest <= 1)%nat
    /\ Forall (fun p => param "user_id" p = Some (strconv.FormatInt user))
              (ban_requests delta)
    /\ existsb is_failure_log delta = false
    /\ existsb is_store_write delta = false
    /\ sleeps delta = []
    /\ kicked delta = [].
Proof.
  destruct (ban_shape E watcher user w) as (r & e1 & d1 & rest & Hb & Hrest).
  destruct Hrest as [->|(t2 & X & d2 & ->)].
  - exists r. eexists. exists []. split; [exact Hb|]. cbn. repeat split; auto.
  - exists r. eexists. exists [banParams (fmt.Sprint X) user (telebot.ForeverAt t2)].
    split; [exact Hb|]. cbn. repeat split; auto.
Qed.

(** X2.  Whatever Telegram answers, [ban] returns to its caller (it never
    ends the process), and all it does is this: it reads the clock and
    sends one "banChatMember" request for the member to the configured
    chat; after that it either does nothing more, or reads the clock once
    more and sends exactly one more "banChatMember" request for the same
    member, whose error it returns.  No other call is made: no log line,
    no sleep, no call to the store. *)
Theorem ban_sends_one_or_two_requests
        (E : Env) (watcher : Watcher) (user : Z) (w : World) :
  let t1 := clock E (trace w) in
  let p1 := banParams (telebot.Recipient (chat watcher)) user (telebot.ForeverAt t1) in
  exists (r e1 : option error) (d1 : json.text) (rest : list Event),
    ban E watcher user w =
    (Ret r, extend w (Now t1 :: BotRaw "banChatMember" p1 d1 e1 :: rest))
    /\ (rest = []
        \/ exists (t2 X : Z) (d2 : json.text),
            rest = [Now t2;
                    BotRaw "banChatMember"
                           (banParams (fmt.Sprint X) user (telebot.ForeverAt t2))
                           d2 r]).
Proof. exact (ban_shape E watcher user w). Qed.

(** ** More on the eviction scanner *)

Section ScannerProfile.
Variable E : Env.
Variable watcher : Watcher.

Lemma kick_profile (user : User) (w : World) :
  exists delta : list Event,
    kick E watcher user w = (Ret tt, extend w delta)
    /\ kicked delta = [UserID user]
    /\ (1 <= List.length (ban_requests delta) <= 2)%nat
    /\ Forall (fun p => param "user_id" p = Some (strconv.FormatInt (UserID user)))
              (ban_requests delta)
    /\ sleeps delta = []
    /\ existsb is_store_write delta = false.
Proof.
  unfold kick, log_Infof, log_Errorf, emit, bind.
  destruct (ban_profile E watcher (UserID user)
              (record (Log Info None "kick %v" [UserID user]) w))
    as (r & d & rest & Hb & Hreq & Hlen & Hall & _ & Hw & Hs & Hk).
  rewrite Hb.
  assert (Hn : (1 <= List.length (ban_requests d) <= 2)%nat)
    by (rewrite Hreq; cbn [List.length]; lia).
  destruct r as [e|]; unfold ret; tidy; eexists; (split; [reflexivity|]).
  - change (Log Info None "kick %v" [UserID user]
            :: d ++ [Log Error (Some e) "ban %v" [UserID user]])
      with ([Log Info None "kick %v" [UserID user]]
            ++ d ++ [Log Error (Some e) "ban %v" [UserID user]]).
    rewrite !kicked_app, !ban_requests_app, !sleeps_app, Hk, Hs.
    cbn [kicked ban_requests sleeps app String.eqb Ascii.eqb Bool.eqb].
    rewrite app_nil_r.
    split; [reflexivity|]. split; [exact Hn|]. split; [exact Hall|].
    split; [reflexivity|].
    cbn [existsb is_store_write orb].
    apply existsb_app_false; [exact Hw|reflexivity].
  - change (Log Info None "kick %v" [UserID user] :: d)
      with ([Log Info None "kick %v" [UserID user]] ++ d).
    rewrite !kicked_app, !ban_requests_app, !sleeps_app, Hk, Hs.
    cbn [kicked ban_requests sleeps app String.eqb Ascii.eqb Bool.eqb].
    split; [reflexivity|]. split; [exact Hn|]. split; [exact Hall|].
    split; [reflexivity|].
    cbn [existsb is_store_write orb]. exact Hw.
Qed.

(** The loop over the candidates always runs to its end. *)
Lemma range_kick_profile (users : list User) (w : World) :
  exists delta : list Event,
    range users (kick E watcher) w = (Ret tt, extend w delta)
    /\ kicked delta = map UserID users
    /\ (List.length users <= List.length (ban_requests delta)
        <= 2 * List.length users)%nat
    /\ Forall (fun p => exists u, In u users
                                  /\ param "user_id" p
                                     = Some (strconv.FormatInt (UserID u)))
              (ban_requests delta)
    /\ sleeps delta = []
    /\ existsb is_store_write delta = false.
Proof.
  revert w. induction users as [|u users IH]; intro w; cbn [range].
  - exists []. unfold ret. rewrite extend_nil. cbn. repeat split; auto.
  - unfold bind.
    destruct (kick_profile u w) as (d1 & Hk & K1 & L1 & A1 & S1 & W1). rewrite Hk.
    destruct (IH (extend w d1)) as (d2 & Hr & K2 & L2 & A2 & S2 & W2).
    rewrite Hr, extend_extend. exists (d1 ++ d2). split; [reflexivity|].
    rewrite kicked_app, ban_requests_app, sleeps_app, K1, K2, S1, S2, length_app.
    cbn [map app List.length]. repeat split; try lia.
    + apply Forall_app. split.
      * eapply Forall_impl; [|exact A1]. intros p Hp. exists u. split; [now left|exact Hp].
      * eapply Forall_impl; [|exact A2]. intros p (v & Hv & Hp). exists v.
        split; [now right|exact Hp].
    + now apply existsb_app_false.
Qed.

Variable w : World.

Let t1 : Z := clock E (trace w).
Let gt : Z := cutoffAt watcher t1.
Let since : Z := mgo.Count (bson.last_message_gt gt) (docs w).
Let counted : list Event := [Now t1; StoreCount (bson.last_message_gt gt) since None].
Let t2 : Z := clock E (trace w ++ counted).
Let lt : Z := cutoffAt watcher t2.
Let stale : list User := mgo.All (bson.last_message_lt lt) (docs w).
Let fault : option (error * nat) := store_fault E (trace w ++ counted ++ [Now t2]).
Let users : list User :=
  match fault with
  | Some (_, k) => firstn k stale
  | None => stale
  end.




Lemma cycle_bans_only_stale :
  exists (r : Outcome unit) (delta : list Event),
    WatchKick_cycle E watcher w = (r, extend w delta)
    /\ Forall (fun p => exists u,
                   In u (docs w)
                   /\ LastMessage u < lt
                   /\ param "user_id" p = Some (strconv.FormatInt (UserID u)))
              (ban_requests delta).
Proof.
  rewrite WatchKick_cycle_unfolded. fold t1 gt since.
  destruct (store_fault E (trace w ++ [Now t1])) as [[e k]|].
  { eexists _, _. split; [reflexivity|]. constructor. }
  destruct (since =? 0).
  { eexists _, _. split; [reflexivity|]. constructor. }
  cbv zeta. fold counted t2 lt stale fault users.
  destruct (range_kick_profile users
              (extend w (counted ++
                         [Now t2;
                          StoreAll (bson.last_message_lt lt) false users
                                   (option_map fst fault)])))
    as (d & Hr & _ & _ & A & _ & _).
  unfold bind. rewrite Hr. unfold time_Sleep, emit. tidy.
  eexists _, _. split; [reflexivity|].
  unfold counted. cbn [app kicked ban_requests sleeps].
  rewrite ban_requests_app. cbn [ban_requests app]. rewrite app_nil_r.
  eapply Forall_impl; [|exact A]. intros p (u & Hu & Hp). exists u.
  assert (Hs : In u stale).
  { subst users. destruct fault as [[e k]|]; [|exact Hu].
    eapply firstn_In; exact Hu. }
  apply filter_In in Hs. destruct Hs as [Hd Hm]. cbn in Hm.
  repeat split; [exact Hd|now apply Z.ltb_lt|exact Hp].
Qed.

(** X4.  The scanner never asks for the ban of a member it has no stale
    record of: in every cycle, whatever the store and Telegram do, each
    ban request names a member with a record in the store whose
    [last_message] is strictly older than the cutoff of the stale query. *)
Theorem WatchKick_cycle_bans_only_stale :
  exists (r : Outcome unit) (delta : list Event),
    WatchKick_cycle E watcher w = (r, extend w delta)
    /\ Forall (fun p => exists u,
                   In u (docs w)
                   /\ LastMessage u < lt
                   /\ param "user_id" p = Some (strconv.FormatInt (UserID u)))
              (ban_requests delta).
Proof. exact cycle_bans_only_stale. Qed.

End ScannerProfile.

Lemma wrap64_negate (d : Z) : - 2 ^ 63 < d < 2 ^ 63 -> wrap64 (d * -1) = - d.
Proof.
  intro H. unfold wrap64.
  change (2 ^ 63) with 9223372036854775808 in *.
  change (2 ^ 64) with 18446744073709551616.
  rewrite Z.mod_small; lia.
Qed.

Lemma div_Second_lt (x l : Z) : l < x / time.Second <-> l * time.Second + time.Second <= x.
Proof.
  unfold time.Second.
  pose proof (Z.div_mod x 1000000000 ltac:(lia)) as D.
  pose proof (Z.mod_pos_bound x 1000000000 ltac:(lia)) as B.
  split; intro H; nia.
Qed.

Lemma div_Second_gt (x l : Z) : x / time.Second < l <-> x < l * time.Second.
Proof.
  unfold time.Second.
  pose proof (Z.div_mod x 1000000000 ltac:(lia)) as D.
  pose proof (Z.mod_pos_bound x 1000000000 ltac:(lia)) as B.
  split; intro H; nia.
Qed.

(** X5.  What the two queries of a cycle mean in wall-clock time, for any
    limit whose negation does not overflow.  A record counts as active
    when its second began after [now - duration]; it is stale when its
    second had ended by [now - duration]; a record whose second contains
    that instant is neither. *)
Theorem cutoff_in_wall_clock_time (watcher : Watcher) (now : Z) (u : User) :
  - 2 ^ 63 < duration watcher < 2 ^ 63 ->
  (mgo.matches (bson.last_message_gt (cutoffAt watcher now)) u = true
   <-> now - duration watcher < time.FromUnix (LastMessage u))
  /\ (mgo.matches (bson.last_message_lt (cutoffAt watcher now)) u = true
      <-> time.FromUnix (LastMessage u) + time.Second <= now - duration watcher).
Proof.
  intro H. unfold cutoffAt, time.Unix, time.Add, time.FromUnix.
  rewrite (wrap64_negate _ H). cbn [mgo.matches].
  rewrite !Z.ltb_lt, div_Second_gt, div_Second_lt.
  replace (now + - duration watcher) with (now - duration watcher) by lia.
  tauto.
Qed.

Lemma cutoff_in_wall_clock_time_witness :
  (mgo.matches (bson.last_message_gt (cutoffAt Scenario.watcher (time.FromUnix 86500)))
               {| UserID := 1; LastMessage := 100 |} = true
   <-> time.FromUnix 86500 - duration Scenario.watcher < time.FromUnix 100)
  /\ (mgo.matches (bson.last_message_lt (cutoffAt Scenario.watcher (time.FromUnix 86500)))
                  {| UserID := 1; LastMessage := 100 |} = true
      <-> time.FromUnix 100 + time.Second
          <= time.FromUnix 86500 - duration Scenario.watcher).
Proof.
  exact (cutoff_in_wall_clock_time Scenario.watcher (time.FromUnix 86500)
           {| UserID := 1; LastMessage := 100 |}
           (conj eq_refl eq_refl)).
Defined.

Section ScannerLoop.
Variable E : Env.
Variable watcher : Watcher.



(** X7.  A failing count query ends the scanner for good: the cycle logs
    the failure at the fatal level and exits with status 1, and no later
    cycle runs (no sleep, no further query, no ban). *)
Theorem WatchKick_stops_when_count_fails
        (n : nat) (w : World) (e : error) (k : nat) :
  store_fault E (trace w ++ [Now (clock E (trace w))]) = Some (e, k) ->
  WatchKick E (S n) watcher w =
  (Exit 1,
   extend w [Now (clock E (trace w));
             StoreCount (bson.last_message_gt (cutoffAt watcher (clock E (trace w))))
                        0 (Some e);
             Log Fatal (Some e) "find messages" []]).
Proof.
  intro H. cbn [WatchKick]. unfold bind.
  now rewrite (WatchKick_cycle_count_failure_is_fatal E watcher w e k H).
Qed.

End ScannerLoop.

(** ** The store under the recorder's two writes *)

Lemma lookup_None (id : Z) (d : list User) :
  lookup id d = None <-> ~ In id (map UserID d).
Proof.
  unfold lookup. induction d as [|u d IH]; cbn [find map In mgo.matches].
  - tauto.
  - destruct (Z.eqb_spec (UserID u) id) as [Heq|Hne].
    + split; [discriminate|]. intro H. exfalso. apply H. now left.
    + rewrite IH. tauto.
Qed.

Lemma Upsert_lookup (user now : Z) (d : list User) :
  lookup user (mgo.Upsert user now d) = Some {| UserID := user; LastMessage := now |}.
Proof.
  unfold lookup. induction d as [|u d IH]; cbn [mgo.Upsert find mgo.matches UserID].
  - now rewrite Z.eqb_refl.
  - destruct (Z.eqb_spec (UserID u) user) as [Heq|Hne];
      cbn [find mgo.matches UserID].
    + now rewrite Z.eqb_refl.
    + apply Z.eqb_neq in Hne. now rewrite Hne.
Qed.

Lemma Upsert_lookup_other (user now other : Z) (d : list User) :
  other <> user -> lookup other (mgo.Upsert user now d) = lookup other d.
Proof.
  intro Hne. unfold lookup.
  induction d as [|u d IH]; cbn [mgo.Upsert find mgo.matches UserID].
  - apply not_eq_sym in Hne. apply Z.eqb_neq in Hne. now rewrite Hne.
  - destruct (Z.eqb_spec (UserID u) user) as [Heq|Hu];
      cbn [find mgo.matches UserID].
    + rewrite Heq. apply not_eq_sym in Hne. apply Z.eqb_neq in Hne. now rewrite Hne.
    + now rewrite IH.
Qed.

Lemma Upsert_ids (user now : Z) (d : list User) (x : Z) :
  In x (map UserID (mgo.Upsert user now d)) -> x = user \/ In x (map UserID d).
Proof.
  induction d as [|u d IH]; cbn [mgo.Upsert map In UserID mgo.matches].
  - intros [H|[]]. now left.
  - destruct (Z.eqb_spec (UserID u) user) as [Heq|Hu]; cbn [map In UserID].
    + intros [H|H]; [now left|right; now right].
    + intros [H|H]; [right; now left|]. destruct (IH H); [now left|right; now right].
Qed.

Lemma Upsert_unique (user now : Z) (d : list User) :
  unique_ids d -> unique_ids (mgo.Upsert user now d).
Proof.
  unfold unique_ids.
  induction d as [|u d IH]; cbn [mgo.Upsert map UserID mgo.matches]; intro H.
  - constructor; [intros []|constructor].
  - inversion H as [|x l Hx Hl]; subst.
    destruct (Z.eqb_spec (UserID u) user) as [Heq|Hu]; cbn [map UserID].
    + constructor; [now rewrite <- Heq|exact Hl].
    + constructor; [|now apply IH].
      intro Hin. apply Upsert_ids in Hin. destruct Hin as [Hin|Hin]; [|contradiction].
      now apply Hu.
Qed.

(** Upserting twice for one member is upserting the later time once. *)
Lemma Upsert_Upsert (user t1 t2 : Z) (d : list User) :
  mgo.Upsert user t2 (mgo.Upsert user t1 d) = mgo.Upsert user t2 d.
Proof.
  induction d as [|u d IH]; cbn [mgo.Upsert mgo.matches UserID].
  - now rewrite Z.eqb_refl.
  - destruct (Z.eqb_spec (UserID u) user) as [Heq|Hu];
      cbn [mgo.Upsert mgo.matches UserID].
    + now rewrite Z.eqb_refl.
    + apply Z.eqb_neq in Hu. now rewrite Hu, IH.
Qed.

Lemma Remove_ids (sel : bson.M) (d d' : list User) (x : Z) :
  mgo.Remove sel d = Some d' -> In x (map UserID d') -> In x (map UserID d).
Proof.
  revert d'. induction d as [|u d IH]; intros d'; cbn [mgo.Remove]; [discriminate|].
  destruct (mgo.matches sel u).
  - intros [= <-] H. now right.
  - destruct (mgo.Remove sel d) as [r|]; cbn [option_map]; [|discriminate].
    intros [= <-] [H|H]; [now left|right; now apply (IH r)].
Qed.

Lemma Remove_unique (sel : bson.M) (d d' : list User) :
  mgo.Remove sel d = Some d' -> unique_ids d -> unique_ids d'.
Proof.
  unfold unique_ids. revert d'.
  induction d as [|u d IH]; intros d'; cbn [mgo.Remove]; [discriminate|].
  intros H U. inversion U as [|x l Hx Hl]; subst.
  destruct (mgo.matches sel u).
  - now injection H as <-.
  - destruct (mgo.Remove sel d) as [r|] eqn:R; cbn [option_map] in H; [|discriminate].
    injection H as <-. cbn [map]. constructor; [|now apply IH].
    intro Hin. apply Hx. eapply Remove_ids; [exact R|exact Hin].
Qed.

Lemma Remove_forgets (id : Z) (d d' : list User) :
  mgo.Remove (bson.user_id id) d = Some d' -> unique_ids d ->
  ~ In id (map UserID d').
Proof.
  unfold unique_ids. revert d'.
  induction d as [|u d IH]; intros d'; cbn [mgo.Remove mgo.matches]; [discriminate|].
  intros H U. inversion U as [|x l Hx Hl]; subst.
  destruct (Z.eqb_spec (UserID u) id) as [Heq|Hne].
  - injection H as <-. now rewrite <- Heq.
  - destruct (mgo.Remove (bson.user_id id) d) as [r|] eqn:R;
      cbn [option_map] in H; [|discriminate].
    injection H as <-. cbn [map In]. intros [Hin|Hin]; [contradiction|].
    now apply (IH r).
Qed.

Lemma Remove_lookup_other (id other : Z) (d d' : list User) :
  mgo.Remove (bson.user_id id) d = Some d' -> other <> id ->
  lookup other d' = lookup other d.
Proof.
  unfold lookup. revert d'.
  induction d as [|u d IH]; intros d'; cbn [mgo.Remove mgo.matches]; [discriminate|].
  intros H Hne. destruct (Z.eqb_spec (UserID u) id) as [Heq|Hu].
  - injection H as <-. cbn [find mgo.matches]. rewrite Heq.
    apply not_eq_sym in Hne. apply Z.eqb_neq in Hne. now rewrite Hne.
  - destruct (mgo.Remove (bson.user_id id) d) as [r|] eqn:R;
      cbn [option_map] in H; [|discriminate].
    injection H as <-. cbn [find]. now rewrite (IH r eq_refl Hne).
Qed.

Lemma Remove_present (id : Z) (d : list User) :
  In id (map UserID d) -> exists d', mgo.Remove (bson.user_id id) d = Some d'.
Proof.
  induction d as [|u d IH]; cbn [map In mgo.Remove mgo.matches]; [intros []|].
  intro H. destruct (Z.eqb_spec (UserID u) id) as [Heq|Hne]; [now eexists|].
  destruct H as [H|H]; [contradiction|]. destruct (IH H) as [r ->]. now eexists.
Qed.

(** ** More on the activity recorder *)

Lemma frames_panic {A : Type} : frames (@panic A).
Proof. intro w. exists []. cbn. now rewrite extend_nil. Qed.

Lemma keeps_unique_of_frames {A : Type} (m : M A) : frames m -> keeps_unique m.
Proof. intros F w U. destruct (F w) as [d ->]. exact U. Qed.

Lemma keeps_unique_bind {A B : Type} (m : M A) (k : A -> M B) :
  keeps_unique m -> (forall a, keeps_unique (k a)) -> keeps_unique (bind m k).
Proof.
  intros Hm Hk w U. unfold bind. specialize (Hm w U).
  destruct (m w) as [[a|c|] w1]; cbn [snd] in *; [now apply Hk|exact Hm|exact Hm].
Qed.

Lemma keeps_unique_range {A : Type} (body : A -> M unit) (l : list A) :
  (forall a, keeps_unique (body a)) -> keeps_unique (range l body).
Proof.
  intro Hb. induction l as [|a l IH]; cbn [range].
  - apply keeps_unique_of_frames, frames_ret.
  - apply keeps_unique_bind; auto.
Qed.

Section RecorderStore.
Variable E : Env.
Variable watcher : Watcher.

Lemma frames_bot_ChatByID (id : Z) : frames (bot_ChatByID E id).
Proof. intro w. unfold bot_ChatByID. cbn [snd]. eexists. apply record_is_extend. Qed.

Lemma frames_bot_Send (to : option telebot.User) (text : string) :
  frames (bot_Send E to text).
Proof.
  destruct to as [u|]; [|apply frames_panic].
  intro w. cbn [bot_Send snd]. eexists. apply record_is_extend.
Qed.

Lemma frames_listTimestamps_loop (users : list User) (entries : list string) :
  frames (listTimestamps_loop E watcher users entries).
Proof.
  revert entries. induction users as [|u users IH]; intro entries;
    cbn [listTimestamps_loop].
  - apply frames_ret.
  - apply frames_bind; [apply frames_bot_ChatByID|intros [c|x]].
    + apply frames_bind; [apply frames_time_Now|intros t; apply IH].
    + apply frames_bind; [apply frames_emit|intros _; apply IH].
Qed.

Lemma frames_listTimestamps : frames (listTimestamps E watcher).
Proof.
  unfold listTimestamps.
  apply frames_bind; [apply frames_store_All|intros [users [e|]]].
  - apply frames_ret.
  - apply frames_bind; [apply frames_listTimestamps_loop|intro; apply frames_ret].
Qed.

Lemma keeps_unique_store_Upsert (user now : Z) : keeps_unique (store_Upsert E user now).
Proof.
  intros w U. unfold store_Upsert.
  destruct (store_fault E (trace w)) as [[e k]|]; cbn [snd record with_docs docs];
    [exact U|now apply Upsert_unique].
Qed.

Lemma keeps_unique_store_Remove (sel : bson.M) : keeps_unique (store_Remove E sel).
Proof.
  intros w U. unfold store_Remove.
  destruct (store_fault E (trace w)) as [[e k]|]; cbn [snd record docs]; [exact U|].
  destruct (mgo.Remove sel (docs w)) as [d|] eqn:R;
    cbn [snd record with_docs docs]; [|exact U].
  eapply Remove_unique; [exact R|exact U].
Qed.

Lemma keeps_unique_updateLastMessage (user : Z) :
  keeps_unique (updateLastMessage E watcher user).
Proof.
  unfold updateLastMessage, log_Infof.
  apply keeps_unique_bind; [apply keeps_unique_of_frames, frames_time_Now|intro t].
  apply keeps_unique_bind; [apply keeps_unique_of_frames, frames_emit|intros _].
  apply keeps_unique_bind; [apply keeps_unique_store_Upsert|intros [e|]];
    apply keeps_unique_of_frames, frames_ret.
Qed.

Lemma keeps_unique_Legacy_handle (update : telebot.Update) :
  keeps_unique (Legacy.handle E watcher update).
Proof.
  unfold Legacy.handle, log_Infof.
  destruct (telebot.Message_ update) as [message|];
    [|apply keeps_unique_of_frames, frames_ret].
  destruct (telebot.UserLeft message) as [leaver|].
  { apply keeps_unique_bind; [apply keeps_unique_of_frames, frames_emit|intros _].
    apply keeps_unique_bind; [apply keeps_unique_store_Remove|intros [e|]];
      apply keeps_unique_of_frames, frames_ret. }
  destruct (telebot.UserJoined message) as [joined|];
    [apply keeps_unique_updateLastMessage|].
  destruct (telebot.Sender message) as [sender|];
    [apply keeps_unique_updateLastMessage|apply keeps_unique_of_frames, frames_ret].
Qed.

(** The report branch of [handle] only reads the store. *)
Lemma frames_report (sender : option telebot.User) :
  frames (bind (listTimestamps E watcher)
               (fun x => let '(entries, err) := x in
                         match err with
                         | Some e => ret (Some e)
                         | None => bot_Send E sender entries
                         end)).
Proof.
  apply frames_bind; [apply frames_listTimestamps|intros [entries [e|]]].
  - apply frames_ret.
  - apply frames_bot_Send.
Qed.

Lemma keeps_unique_handle (update : telebot.Update) :
  keeps_unique (handle E watcher update).
Proof.
  intros w U.
  destruct (telebot.Message_ update) as [message|] eqn:Hm.
  - destruct (is_command (telebot.Text message)) eqn:Hc.
    + unfold handle. rewrite Hm, Hc.
      exact (keeps_unique_of_frames _ (frames_report (telebot.Sender message)) w U).
    + rewrite (handle_is_Legacy_handle E watcher w update message Hm Hc).
      now apply keeps_unique_Legacy_handle.
  - unfold handle. rewrite Hm. exact U.
Qed.

Lemma keeps_unique_handle_each
      (h : Watcher -> telebot.Update -> M (option error))
      (updates : list telebot.Update) :
  (forall update, keeps_unique (h watcher update)) ->
  keeps_unique (handle_each h watcher updates).
Proof.
  intro H. unfold handle_each. apply keeps_unique_range. intro update.
  apply keeps_unique_bind; [apply H|intro; apply keeps_unique_of_frames, frames_ret].
Qed.

(** X8.  The recorder keeps the store at one document per member: from a
    store with no member recorded twice, [Record] leaves a store with no
    member recorded twice, whatever updates arrive and whatever the store
    and Telegram answer, also when it ends the process.  Both copies. *)
Theorem Record_keeps_one_document_per_member
        (updates : list telebot.Update) (w : World) :
  unique_ids (docs w) ->
  unique_ids (docs (snd (Record_ E watcher updates w)))
  /\ unique_ids (docs (snd (Legacy.Record_ E watcher updates w))).
Proof.
  intro U. split.
  - revert w U. change (keeps_unique (Record_ E watcher updates)).
    unfold Record_, log_Fatalf, log_Infof.
    apply keeps_unique_bind;
      [apply keeps_unique_of_frames; intro w; unfold bot_SetCommands; cbn [snd];
       eexists; apply record_is_extend|intro err].
    apply keeps_unique_bind.
    { destruct err; apply keeps_unique_of_frames; [|apply frames_ret].
      apply frames_bind; [apply frames_emit|intros _; apply frames_exit]. }
    intros _. apply keeps_unique_bind;
      [|intros _; apply keeps_unique_of_frames, frames_emit].
    apply keeps_unique_handle_each. apply keeps_unique_handle.
  - revert w U. change (keeps_unique (Legacy.Record_ E watcher updates)).
    unfold Legacy.Record_, log_Infof.
    apply keeps_unique_bind;
      [|intros _; apply keeps_unique_of_frames, frames_emit].
    apply keeps_unique_handle_each. apply keeps_unique_Legacy_handle.
Qed.

End RecorderStore.

(** ** Computations that only read *)

Lemma no_store_write (d : list Event) :
  existsb is_store_write d = false -> upserts d = [] /\ removes d = [].
Proof.
  induction d as [|e d IH]; [now split|].
  destruct e; cbn [existsb is_store_write orb upserts removes]; try exact IH;
    discriminate.
Qed.

Lemma reads_only_ret {A : Type} (a : A) : reads_only (ret a).
Proof. intro w. exists []. cbn. now rewrite extend_nil. Qed.

Lemma reads_only_panic {A : Type} : reads_only (@panic A).
Proof. intro w. exists []. cbn. now rewrite extend_nil. Qed.

Lemma reads_only_emit (e : Event) : is_store_write e = false -> reads_only (emit e).
Proof. intros H w. exists [e]. cbn. now rewrite H. Qed.

Lemma reads_only_bind {A B : Type} (m : M A) (k : A -> M B) :
  reads_only m -> (forall a, reads_only (k a)) -> reads_only (bind m k).
Proof.
  intros Hm Hk w. unfold bind. destruct (Hm w) as (d1 & H1 & W1).
  destruct (m w) as [[a|c|] w1]; cbn [snd] in *; subst w1.
  - destruct (Hk a (extend w d1)) as (d2 & H2 & W2). exists (d1 ++ d2).
    rewrite H2, extend_extend. split; [reflexivity|now apply existsb_app_false].
  - now exists d1.
  - now exists d1.
Qed.

Section ReadsOnly.
Variable E : Env.
Variable watcher : Watcher.

Lemma reads_only_time_Now : reads_only (time_Now E).
Proof. intro w. now exists [Now (clock E (trace w))]. Qed.

Lemma reads_only_bot_ChatByID (id : Z) : reads_only (bot_ChatByID E id).
Proof. intro w. unfold bot_ChatByID. cbn [snd]. eexists. split; [apply record_is_extend|reflexivity]. Qed.

Lemma reads_only_bot_Send (to : option telebot.User) (text : string) :
  reads_only (bot_Send E to text).
Proof.
  destruct to as [u|]; [|apply reads_only_panic].
  intro w. cbn [bot_Send snd]. eexists. split; [apply record_is_extend|reflexivity].
Qed.

Lemma reads_only_store_All (sel : bson.M) (sorted : bool) :
  reads_only (store_All E sel sorted).
Proof.
  intro w. unfold store_All.
  destruct (store_fault E (trace w)) as [[e k]|]; cbn [snd];
    eexists; (split; [apply record_is_extend|reflexivity]).
Qed.

Lemma reads_only_listTimestamps_loop (users : list User) (entries : list string) :
  reads_only (listTimestamps_loop E watcher users entries).
Proof.
  revert entries. induction users as [|u users IH]; intro entries;
    cbn [listTimestamps_loop].
  - apply reads_only_ret.
  - apply reads_only_bind; [apply reads_only_bot_ChatByID|intros [c|x]].
    + apply reads_only_bind; [apply reads_only_time_Now|intros t; apply IH].
    + apply reads_only_bind; [now apply reads_only_emit|intros _; apply IH].
Qed.

Lemma reads_only_listTimestamps : reads_only (listTimestamps E watcher).
Proof.
  unfold listTimestamps.
  apply reads_only_bind; [apply reads_only_store_All|intros [users [e|]]].
  - apply reads_only_ret.
  - apply reads_only_bind;
      [apply reads_only_listTimestamps_loop|intro; apply reads_only_ret].
Qed.

(** The report branch of [handle]. *)
Lemma reads_only_report (sender : option telebot.User) :
  reads_only (bind (listTimestamps E watcher)
                   (fun x => let '(entries, err) := x in
                             match err with
                             | Some e => ret (Some e)
                             | None => bot_Send E sender entries
                             end)).
Proof.
  apply reads_only_bind; [apply reads_only_listTimestamps|intros [entries [e|]]].
  - apply reads_only_ret.
  - apply reads_only_bot_Send.
Qed.

End ReadsOnly.

Section RecorderEffects.
Variable E : Env.
Variable watcher : Watcher.
Variable w : World.

(** X9.  When the upsert goes through, [updateLastMessage] returns nil and
    the store then holds, as the member's record, the member with the
    current second; every other member's record is as it was, and a store
    with one document per member stays so. *)
Theorem updateLastMessage_records_activity (user : Z) :
  let now := time.Unix (clock E (trace w)) in
  let logged :=
    [Now (clock E (trace w)); Log Info None "update user: %v now: %v" [user; now]] in
  store_fault E (trace w ++ logged) = None ->
  let result := updateLastMessage E watcher user w in
  fst result = Ret None
  /\ lookup user (docs (snd result)) = Some {| UserID := user; LastMessage := now |}
  /\ (forall other, other <> user ->
                    lookup other (docs (snd result)) = lookup other (docs w))
  /\ (unique_ids (docs w) -> unique_ids (docs (snd result))).
Proof.
  intros now logged H result. subst result.
  pose proof (updateLastMessage_unfolded E watcher w user) as U. cbv zeta in U.
  fold now in U. fold logged in U. rewrite H in U. rewrite U. cbn [fst snd docs].
  split; [reflexivity|]. split; [apply Upsert_lookup|].
  split; [intros other Hne; now apply Upsert_lookup_other|apply Upsert_unique].
Qed.

(** X10.  Activity overwrites: two upserts for one member in a row leave
    the store as the second alone would, with the later time. *)
Theorem updateLastMessage_twice_keeps_the_later (user : Z) :
  (forall tr, store_fault E tr = None) ->
  let w1 := snd (updateLastMessage E watcher user w) in
  let w2 := snd (updateLastMessage E watcher user w1) in
  docs w2 = mgo.Upsert user (time.Unix (clock E (trace w1))) (docs w)
  /\ lookup user (docs w2)
     = Some {| UserID := user; LastMessage := time.Unix (clock E (trace w1)) |}.
Proof.
  intros H w1 w2.
  assert (D : docs w2 = mgo.Upsert user (time.Unix (clock E (trace w1))) (docs w)).
  { subst w2.
    pose proof (updateLastMessage_unfolded E watcher w1 user) as U2. cbv zeta in U2.
    rewrite H in U2. rewrite U2. cbn [snd docs]. subst w1.
    pose proof (updateLastMessage_unfolded E watcher w user) as U1. cbv zeta in U1.
    rewrite H in U1. rewrite U1. cbn [snd docs trace]. apply Upsert_Upsert. }
  split; [exact D|]. rewrite D. apply Upsert_lookup.
Qed.

Variable update : telebot.Update.

(** X11.  An update without a message, and a message that names no
    member and is not a report command, are ignored: [handle] returns nil
    and calls nothing. *)
Theorem handle_ignores_updates_without_member :
  telebot.Message_ update = None
  \/ (exists message,
         telebot.Message_ update = Some message
         /\ telebot.UserLeft message = None
         /\ telebot.UserJoined message = None
         /\ telebot.Sender message = None
         /\ is_command (telebot.Text message) = false) ->
  handle E watcher update w = (Ret None, w)
  /\ Legacy.handle E watcher update w = (Ret None, w).
Proof.
  intros [H|(message & Hm & Hl & Hj & Hs & Hc)]; unfold handle, Legacy.handle.
  - now rewrite H.
  - now rewrite Hm, Hc, Hl, Hj, Hs.
Qed.

Variable message : telebot.Message.
Hypothesis Hmessage : telebot.Message_ update = Some message.

(** X12.  When a member with a record leaves (the store answering and
    holding one document per member), [handle] returns nil, the member has
    no record afterwards, so that no later query of the scanner, with
    whatever cutoff, returns that member; every other member's record is
    as it was. *)
Theorem handle_left_forgets_member (leaver : telebot.User) :
  telebot.UserLeft message = Some leaver ->
  store_fault E (trace w ++ [Log Info None "remove user: %v now: %v"
                                 [telebot.ID leaver]]) = None ->
  unique_ids (docs w) ->
  In (telebot.ID leaver) (map UserID (docs w)) ->
  let result := Legacy.handle E watcher update w in
  (is_command (telebot.Text message) = false -> handle E watcher update w = result)
  /\ fst result = Ret None
  /\ lookup (telebot.ID leaver) (docs (snd result)) = None
  /\ (forall sel u, In u (mgo.All sel (docs (snd result))) ->
                    UserID u <> telebot.ID leaver)
  /\ (forall other, other <> telebot.ID leaver ->
                    lookup other (docs (snd result)) = lookup other (docs w)).
Proof.
  intros Hl Hf U Hin result. subst result.
  split; [intro Hc; now apply handle_is_Legacy_handle with (message := message)|].
  pose proof (Legacy_handle_left E watcher w update message Hmessage leaver Hl) as L.
  cbv zeta in L. rewrite Hf in L.
  destruct (Remove_present _ _ Hin) as [d' R]. rewrite R in L. rewrite L.
  cbn [fst snd docs]. split; [reflexivity|].
  pose proof (Remove_forgets _ _ _ R U) as F.
  split; [now apply lookup_None|]. split.
  - intros sel u Hu Heq. apply F. apply filter_In in Hu. destruct Hu as [Hu _].
    rewrite <- Heq. now apply in_map.
  - intros other Hne. now apply (Remove_lookup_other _ _ _ _ R).
Qed.

(** X13.  A report command never changes the store: whatever comes of
    the report, [handle] makes no upsert and no remove for that update. *)
Theorem handle_report_only_reads :
  is_command (telebot.Text message) = true ->
  exists delta : list Event,
    snd (handle E watcher update w) = extend w delta
    /\ upserts delta = []
    /\ removes delta = [].
Proof.
  intro Hc. unfold handle. rewrite Hmessage, Hc.
  destruct (reads_only_report E watcher (telebot.Sender message) w) as (d & Hd & Hw).
  exists d. split; [exact Hd|]. now apply no_store_write.
Qed.

(** X14.  When the store fails the query behind a report, the member who
    asked is sent nothing: [handle] returns the store's error after that
    one query, without a lookup and without a message to Telegram. *)
Theorem handle_report_store_failure (e : error) (k : nat) :
  is_command (telebot.Text message) = true ->
  store_fault E (trace w) = Some (e, k) ->
  exists part : list User,
    handle E watcher update w =
    (Ret (Some e), extend w [StoreAll bson.all true part (Some e)]).
Proof.
  intros Hc Hf. unfold handle. rewrite Hmessage, Hc.
  unfold listTimestamps, store_All, bind, ret. rewrite Hf.
  eexists. tidy. reflexivity.
Qed.

End RecorderEffects.

(** ** The loop of the recorder *)

Lemma store_writes_app (a b : list Event) :
  store_writes (a ++ b) = store_writes a ++ store_writes b.
Proof. apply filter_app. Qed.

Section RecorderLoop.
Variable E : Env.
Variable watcher : Watcher.

Lemma Legacy_handle_profile (update : telebot.Update) (w : World) :
  exists (r : option error) (d : list User) (delta : list Event),
    Legacy.handle E watcher update w = (Ret r, {| docs := d; trace := trace w ++ delta |})
    /\ List.length (store_writes delta) = if names_member update then 1%nat else 0%nat.
Proof.
  assert (U : forall user,
             exists r d delta,
               updateLastMessage E watcher user w
               = (Ret r, {| docs := d; trace := trace w ++ delta |})
               /\ List.length (store_writes delta) = 1%nat).
  { intro user. pose proof (updateLastMessage_unfolded E watcher w user) as U.
    cbv zeta in U. rewrite U.
    destruct (store_fault E _) as [[e k]|]; eexists _, _, _; split; reflexivity. }
  destruct (telebot.Message_ update) as [message|] eqn:Hm.
  - destruct (telebot.UserLeft message) as [leaver|] eqn:Hl.
    + pose proof (Legacy_handle_left E watcher w update message Hm leaver Hl) as L.
      cbv zeta in L. rewrite L. unfold names_member. rewrite Hm, Hl.
      destruct (store_fault E _) as [[e k]|]; [|destruct (mgo.Remove _ _)];
        eexists _, _, _; split; reflexivity.
    + destruct (telebot.UserJoined message) as [joined|] eqn:Hj.
      * rewrite (Legacy_handle_joined E watcher w update message Hm joined Hl Hj).
        unfold names_member. rewrite Hm, Hl, Hj. apply U.
      * destruct (telebot.Sender message) as [sender|] eqn:Hs.
        -- rewrite (Legacy_handle_sender E watcher w update message Hm sender Hl Hj Hs).
           unfold names_member. rewrite Hm, Hl, Hj, Hs. apply U.
        -- unfold Legacy.handle, names_member. rewrite Hm, Hl, Hj, Hs.
           exists None, (docs w), []. rewrite app_nil_r. destruct w. now split.
  - unfold Legacy.handle, names_member. rewrite Hm.
    exists None, (docs w), []. rewrite app_nil_r. destruct w. now split.
Qed.

Lemma Legacy_handle_each_profile (updates : list telebot.Update) (w : World) :
  exists (d : list User) (delta : list Event),
    handle_each (Legacy.handle E) watcher updates w
    = (Ret tt, {| docs := d; trace := trace w ++ delta |})
    /\ List.length (store_writes delta) = List.length (filter names_member updates).
Proof.
  revert w. induction updates as [|u updates IH]; intro w.
  - exists (docs w), []. unfold handle_each. cbn [range]. unfold ret.
    rewrite app_nil_r. destruct w. now split.
  - destruct (Legacy_handle_profile u w) as (r & d1 & delta1 & Hh & Hn).
    rewrite (handle_each_goes_on _ _ _ _ _ _ _ Hh).
    destruct (IH {| docs := d1; trace := trace w ++ delta1 |})
      as (d2 & delta2 & Hr & Hm).
    rewrite Hr. cbn [trace]. rewrite <- app_assoc. exists d2, (delta1 ++ delta2).
    split; [reflexivity|].
    rewrite store_writes_app, length_app, Hn, Hm. cbn [filter].
    destruct (names_member u); reflexivity.
Qed.

(** X15.  The older recorder takes every update it is given and then
    returns: it cannot end the process.  Every update that names a member
    (one who left, one who joined, or a sender) makes exactly one write to
    the store, attempted even after earlier writes failed; the other
    updates make none; the closing log line follows. *)
Theorem Legacy_Record_handles_every_update
        (updates : list telebot.Update) (w : World) :
  exists (d : list User) (delta : list Event),
    Legacy.Record_ E watcher updates w
    = (Ret tt,
       {| docs := d;
          trace := trace w ++ delta ++ [Log Info None "telekick started" []] |})
    /\ List.length (store_writes delta) = List.length (filter names_member updates).
Proof.
  destruct (Legacy_handle_each_profile updates w) as (d & delta & Hh & Hn).
  exists d, delta. split; [|exact Hn].
  unfold Legacy.Record_, bind. rewrite Hh. unfold log_Infof, emit, record.
  cbn [docs trace]. now rewrite <- app_assoc.
Qed.

Lemma handle_each_agrees (updates : list telebot.Update) (w : World) :
  Forall (fun update => asks_report update = false) updates ->
  handle_each (handle E) watcher updates w
  = handle_each (Legacy.handle E) watcher updates w.
Proof.
  intro H. revert w. induction H as [|u updates Hu Hrest IH]; intro w; [reflexivity|].
  assert (Heq : handle E watcher u w = Legacy.handle E watcher u w).
  { unfold asks_report in Hu.
    destruct (telebot.Message_ u) as [message|] eqn:Hm.
    - now apply handle_is_Legacy_handle with (message := message).
    - unfold handle, Legacy.handle. now rewrite Hm. }
  destruct (Legacy_handle_profile u w) as (r & d1 & delta1 & Hh & _).
  rewrite (handle_each_goes_on (Legacy.handle E) _ _ _ _ _ _ Hh).
  rewrite <- Heq in Hh.
  rewrite (handle_each_goes_on (handle E) _ _ _ _ _ _ Hh).
  apply IH.
Qed.

(** X16.  On updates none of which is a report command, [Record] of
    [main.go] does what the older copy does, after registering its
    command with Telegram. *)
Theorem Record_agrees_with_Legacy_Record
        (updates : list telebot.Update) (w : World) :
  api_SetCommands E (trace w) = None ->
  Forall (fun update => asks_report update = false) updates ->
  Record_ E watcher updates w
  = Legacy.Record_ E watcher updates (record (BotSetCommands None) w).
Proof.
  intros Hs H. unfold Record_, Legacy.Record_, bot_SetCommands.
  unfold bind at 1 2. rewrite Hs. unfold ret at 1.
  unfold bind. now rewrite (handle_each_agrees updates _ H).
Qed.

(** X17.  When Telegram refuses the registration of the command, [Record]
    ends the process with a fatal log line before it takes any update:
    no update is handled and the store is not touched. *)
Theorem Record_SetCommands_failure_is_fatal
        (updates : list telebot.Update) (w : World) (e : error) :
  api_SetCommands E (trace w) = Some e ->
  Record_ E watcher updates w
  = (Exit 1,
     extend w [BotSetCommands (Some e); Log Fatal (Some e) "set commands" []]).
Proof.
  intro Hs. unfold Record_, bot_SetCommands, log_Fatalf, emit, exit.
  unfold bind. rewrite Hs. now tidy.
Qed.

End RecorderLoop.

(** ** The report *)

Lemma All_all (d : list User) : mgo.All bson.all d = d.
Proof.
  unfold mgo.All. induction d as [|u d IH]; cbn [filter mgo.matches];
    [reflexivity|now rewrite IH].
Qed.

Lemma insert_sorted_Permutation (u : User) (l : list User) :
  Permutation (mgo.insert_sorted u l) (u :: l).
Proof.
  induction l as [|v l IH]; cbn [mgo.insert_sorted]; [reflexivity|].
  destruct (LastMessage u <? LastMessage v); [reflexivity|].
  rewrite IH. apply perm_swap.
Qed.

Lemma Sort_Permutation (d : list User) : Permutation (mgo.Sort d) d.
Proof.
  unfold mgo.Sort. rewrite (Permutation_rev d) at 2.
  induction (rev d) as [|u l IH]; cbn [fold_right]; [reflexivity|].
  rewrite insert_sorted_Permutation. now constructor.
Qed.

Lemma insert_sorted_Sorted (u : User) (l : list User) :
  Sorted (fun a b => LastMessage a <= LastMessage b) l ->
  Sorted (fun a b => LastMessage a <= LastMessage b) (mgo.insert_sorted u l).
Proof.
  induction l as [|v l IH]; intro H; cbn [mgo.insert_sorted].
  - repeat constructor.
  - destruct (Z.ltb_spec (LastMessage u) (LastMessage v)) as [Hlt|Hge].
    + constructor; [exact H|]. constructor. lia.
    + inversion H as [|x y Hs Hh]; subst. constructor; [now apply IH|].
      destruct l as [|b l]; cbn [mgo.insert_sorted]; [now constructor|].
      destruct (LastMessage u <? LastMessage b); constructor; [exact Hge|].
      now inversion Hh.
Qed.

Lemma Sort_Sorted (d : list User) :
  Sorted (fun a b => LastMessage a <= LastMessage b) (mgo.Sort d).
Proof.
  unfold mgo.Sort. induction (rev d) as [|u l IH]; cbn [fold_right];
    [constructor|now apply insert_sorted_Sorted].
Qed.

Section Report.
Variable E : Env.
Variable watcher : Watcher.

Lemma listTimestamps_loop_profile
      (users : list User) (entries : list string) (w : World) :
  exists (lines : list string) (delta : list Event),
    listTimestamps_loop E watcher users entries w
    = (Ret (entries ++ lines), extend w delta)
    /\ chat_lookups delta = map UserID users
    /\ (List.length lines + List.length (chat_failures delta)
        = List.length users)%nat
    /\ List.length (filter is_failure_log delta)
       = List.length (chat_failures delta).
Proof.
  revert entries w. induction users as [|u users IH]; intros entries w;
    cbn [listTimestamps_loop].
  - exists [], []. unfold ret. rewrite app_nil_r, extend_nil. now repeat split.
  - unfold bind at 1, bot_ChatByID.
    destruct (api_ChatByID E (trace w) (UserID u)) as [c|x] eqn:Hc.
    + unfold bind at 1, time_Now.
      match goal with
      | |- context [listTimestamps_loop E watcher users (entries ++ [?line]) ?w1] =>
          destruct (IH (entries ++ [line]) w1) as (lines & d & Hl & C & N & F);
          exists (line :: lines)
      end.
      rewrite Hl. tidy. eexists. split; [reflexivity|].
      cbn [chat_lookups chat_failures filter is_failure_log List.length map].
      rewrite C, F. repeat split; lia.
    + unfold bind at 1, log_Errorf, emit.
      match goal with
      | |- context [listTimestamps_loop E watcher users entries ?w1] =>
          destruct (IH entries w1) as (lines & d & Hl & C & N & F)
      end.
      rewrite Hl. tidy. exists lines. eexists. split; [reflexivity|].
      cbn [chat_lookups chat_failures filter is_failure_log List.length map].
      rewrite C, F. repeat split; lia.
Qed.

(** X18.  When the store answers, the report goes through every member
    of the store exactly once, least recently active first: each is looked
    up with Telegram in that order; a member whose lookup fails is logged
    and left out, the others get one line each; the lines are joined by
    newlines and returned without error. *)
Theorem listTimestamps_reports_in_order (w : World) :
  store_fault E (trace w) = None ->
  let members := mgo.Sort (docs w) in
  Sorted (fun a b => LastMessage a <= LastMessage b) members
  /\ Permutation members (docs w)
  /\ exists (lines : list string) (delta : list Event),
      listTimestamps E watcher w
      = (Ret (String.concat newline lines, None),
         extend w (StoreAll bson.all true members None :: delta))
      /\ chat_lookups delta = map UserID members
      /\ (List.length lines + List.length (chat_failures delta)
          = List.length (docs w))%nat
      /\ List.length (filter is_failure_log delta)
         = List.length (chat_failures delta).
Proof.
  intros H members. split; [apply Sort_Sorted|]. split; [apply Sort_Permutation|].
  unfold listTimestamps, store_All. unfold bind at 1. rewrite H.
  rewrite All_all. fold members.
  destruct (listTimestamps_loop_profile members []
              (record (StoreAll bson.all true members None) w))
    as (lines & d & Hl & C & N & F).
  unfold bind. rewrite Hl. unfold ret. tidy. exists lines, d.
  split; [reflexivity|]. split; [exact C|]. split; [|exact F].
  rewrite N. subst members. apply Permutation_length, Sort_Permutation.
Qed.

End Report.

(** ** Members are told apart *)

(** [strconv.FormatInt] gives different numbers different spellings. *)
Lemma FormatInt_inj (a b : Z) : strconv.FormatInt a = strconv.FormatInt b -> a = b.
Proof.
  assert (P : forall z,
             NilZero.int_of_string (strconv.FormatInt z) = Some (Z.to_int z)).
  { intro z. apply NilZero.isi; destruct z; cbn; try discriminate;
      intros [= H]; now apply DecimalPos.Unsigned.to_uint_nonnil in H. }
  intro H. apply DecimalZ.to_int_inj.
  pose proof (P a) as Pa. rewrite H, P in Pa. now injection Pa.
Qed.

Lemma unique_ids_member (d : list User) (u v : User) :
  unique_ids d -> In u d -> In v d -> UserID u = UserID v -> u = v.
Proof.
  unfold unique_ids. induction d as [|x d IH]; cbn [map In]; [intros _ []|].
  intros N Hu Hv Heq. inversion N as [|y l Hx Hl]; subst.
  destruct Hu as [->|Hu], Hv as [->|Hv]; [reflexivity| | |now apply IH].
  - exfalso. apply Hx. rewrite Heq. now apply in_map.
  - exfalso. apply Hx. rewrite <- Heq. now apply in_map.
Qed.

(** X19.  With one document per member in the store, a cycle of the
    scanner sends no ban request that names a member whose record is at
    or after the cutoff of the stale query, whatever the store and
    Telegram answer. *)
Theorem WatchKick_cycle_spares_recent_members
        (E : Env) (watcher : Watcher) (w : World) :
  let t1 := clock E (trace w) in
  let gt := cutoffAt watcher t1 in
  let since := mgo.Count (bson.last_message_gt gt) (docs w) in
  let counted := [Now t1; StoreCount (bson.last_message_gt gt) since None] in
  let lt := cutoffAt watcher (clock E (trace w ++ counted)) in
  unique_ids (docs w) ->
  exists (r : Outcome unit) (delta : list Event),
    WatchKick_cycle E watcher w = (r, extend w delta)
    /\ forall u, In u (docs w) -> lt <= LastMessage u ->
                 ~ In (Some (strconv.FormatInt (UserID u)))
                      (map (param "user_id") (ban_requests delta)).
Proof.
  intros t1 gt since counted lt U.
  destruct (cycle_bans_only_stale E watcher w) as (r & delta & Hc & A).
  exists r, delta. split; [exact Hc|]. intros u Hu Hrecent Hin.
  apply in_map_iff in Hin. destruct Hin as (p & Hp & Hin).
  rewrite Forall_forall in A. destruct (A p Hin) as (v & Hv & Hstale & Hpv).
  rewrite Hp in Hpv. injection Hpv as Hpv. apply FormatInt_inj in Hpv.
  assert (u = v) by (eapply unique_ids_member; eauto). subst v.
  fold t1 gt since counted lt in Hstale. lia.
Qed.

(** ** The further properties at work *)



Lemma WatchKick_stops_when_count_fails_witness :
  let w := Scenario.stored [Cases.alice; Cases.bob] in
  WatchKick Cases.storeless 5 Scenario.watcher w =
  (Exit 1,
   extend w [Now (time.FromUnix 1000);
             StoreCount (bson.last_message_gt (-85400)) 0 (Some Scenario.unreachable);
             Log Fatal (Some Scenario.unreachable) "find messages" []]).
Proof.
  exact (WatchKick_stops_when_count_fails Cases.storeless Scenario.watcher 4
           (Scenario.stored [Cases.alice; Cases.bob]) Scenario.unreachable O eq_refl).
Defined.

Lemma Record_keeps_one_document_per_member_witness :
  let updates := [Cases.update (Cases.text "hi" (Some 5));
                  Cases.update (Cases.leaving 7);
                  Cases.update (Cases.text "/when" (Some 5))] in
  let w := Scenario.stored [Cases.carol] in
  unique_ids (docs (snd (Record_ Cases.calm Scenario.watcher updates w)))
  /\ unique_ids (docs (snd (Legacy.Record_ Cases.calm Scenario.watcher updates w))).
Proof.
  apply (Record_keeps_one_document_per_member Cases.calm Scenario.watcher).
  repeat constructor. intros [].
Defined.

Lemma updateLastMessage_records_activity_witness :
  let w := Scenario.stored [Cases.carol] in
  let result := updateLastMessage Cases.calm Scenario.watcher 7 w in
  fst result = Ret None
  /\ lookup 7 (docs (snd result)) = Some {| UserID := 7; LastMessage := 1000 |}
  /\ (forall other, other <> 7 ->
                    lookup other (docs (snd result)) = lookup other (docs w))
  /\ (unique_ids (docs w) -> unique_ids (docs (snd result))).
Proof.
  exact (updateLastMessage_records_activity Cases.calm Scenario.watcher
           (Scenario.stored [Cases.carol]) 7 eq_refl).
Defined.

Lemma updateLastMessage_twice_keeps_the_later_witness :
  let w := Scenario.stored [Cases.carol] in
  let w1 := snd (updateLastMessage Cases.calm Scenario.watcher 7 w) in
  let w2 := snd (updateLastMessage Cases.calm Scenario.watcher 7 w1) in
  docs w2 = mgo.Upsert 7 1000 (docs w)
  /\ lookup 7 (docs w2) = Some {| UserID := 7; LastMessage := 1000 |}.
Proof.
  exact (updateLastMessage_twice_keeps_the_later Cases.calm Scenario.watcher
           (Scenario.stored [Cases.carol]) 7 (fun _ => eq_refl)).
Defined.

Lemma handle_ignores_updates_without_member_witness :
  let update := Cases.update (Cases.text "pinned a message" None) in
  handle Cases.calm Scenario.watcher update Scenario.empty = (Ret None, Scenario.empty)
  /\ Legacy.handle Cases.calm Scenario.watcher update Scenario.empty
     = (Ret None, Scenario.empty).
Proof.
  apply (handle_ignores_updates_without_member Cases.calm Scenario.watcher).
  right. exists (Cases.text "pinned a message" None). repeat split.
Defined.

Lemma handle_left_forgets_member_witness :
  let w := Scenario.stored [Cases.carol; Cases.bob] in
  let update := Cases.update (Cases.leaving 7) in
  let result := Legacy.handle Cases.calm Scenario.watcher update w in
  (is_command "" = false -> handle Cases.calm Scenario.watcher update w = result)
  /\ fst result = Ret None
  /\ lookup 7 (docs (snd result)) = None
  /\ (forall sel u, In u (mgo.All sel (docs (snd result))) -> UserID u <> 7)
  /\ (forall other, other <> 7 ->
                    lookup other (docs (snd result)) = lookup other (docs w)).
Proof.
  apply (handle_left_forgets_member Cases.calm Scenario.watcher
           (Scenario.stored [Cases.carol; Cases.bob])
           (Cases.update (Cases.leaving 7)) (Cases.leaving 7) eq_refl
           (telebot.Build_User 7) eq_refl eq_refl).
  - repeat constructor; cbn; intuition discriminate.
  - now left.
Defined.

Lemma handle_report_only_reads_witness :
  let w := Scenario.stored [Cases.carol] in
  exists delta : list Event,
    snd (handle Cases.calm Scenario.watcher
                (Cases.update (Cases.text "q" (Some 5))) w) = extend w delta
    /\ upserts delta = []
    /\ removes delta = [].
Proof.
  exact (handle_report_only_reads Cases.calm Scenario.watcher
           (Scenario.stored [Cases.carol])
           (Cases.update (Cases.text "q" (Some 5))) (Cases.text "q" (Some 5))
           eq_refl eq_refl).
Defined.

Lemma handle_report_store_failure_witness :
  let w := Scenario.stored [Cases.carol] in
  exists part : list User,
    handle Cases.storeless Scenario.watcher
           (Cases.update (Cases.text "/when" (Some 5))) w =
    (Ret (Some Scenario.unreachable),
     extend w [StoreAll bson.all true part (Some Scenario.unreachable)]).
Proof.
  exact (handle_report_store_failure Cases.storeless Scenario.watcher
           (Scenario.stored [Cases.carol])
           (Cases.update (Cases.text "/when" (Some 5)))
           (Cases.text "/when" (Some 5)) eq_refl
           Scenario.unreachable O eq_refl eq_refl).
Defined.

Lemma Record_agrees_with_Legacy_Record_witness :
  let updates := [Cases.update (Cases.text "hi" (Some 5));
                  Cases.update (Cases.leaving 7)] in
  let w := Scenario.stored [Cases.carol] in
  Record_ Cases.calm Scenario.watcher updates w
  = Legacy.Record_ Cases.calm Scenario.watcher updates
                   (record (BotSetCommands None) w).
Proof.
  apply (Record_agrees_with_Legacy_Record Cases.calm Scenario.watcher).
  - reflexivity.
  - repeat constructor.
Defined.

Lemma Record_SetCommands_failure_is_fatal_witness :
  let updates := [Cases.update (Cases.text "hi" (Some 5))] in
  Record_ Cases.unregistered Scenario.watcher updates Scenario.empty
  = (Exit 1,
     extend Scenario.empty
            [BotSetCommands (Some Scenario.refused);
             Log Fatal (Some Scenario.refused) "set commands" []]).
Proof.
  exact (Record_SetCommands_failure_is_fatal Cases.unregistered Scenario.watcher
           [Cases.update (Cases.text "hi" (Some 5))] Scenario.empty
           Scenario.refused eq_refl).
Defined.

Lemma listTimestamps_reports_in_order_witness :
  let w := Scenario.stored [Cases.carol; Cases.bob; Cases.alice] in
  let members := [Cases.alice; Cases.carol; Cases.bob] in
  Sorted (fun a b => LastMessage a <= LastMessage b) members
  /\ Permutation members (docs w)
  /\ exists (lines : list string) (delta : list Event),
      listTimestamps Cases.forgetful Scenario.watcher w
      = (Ret (String.concat newline lines, None),
         extend w (StoreAll bson.all true members None :: delta))
      /\ chat_lookups delta = [1; 7; 2]
      /\ (List.length lines + List.length (chat_failures delta) = 3)%nat
      /\ List.length (filter is_failure_log delta)
         = List.length (chat_failures delta).
Proof.
  exact (listTimestamps_reports_in_order Cases.forgetful Scenario.watcher
           (Scenario.stored [Cases.carol; Cases.bob; Cases.alice]) eq_refl).
Defined.

Lemma WatchKick_cycle_spares_recent_members_witness :
  let w := Scenario.stored [Cases.alice; Cases.bob] in
  exists (r : Outcome unit) (delta : list Event),
    WatchKick_cycle Cases.later Scenario.watcher w = (r, extend w delta)
    /\ forall u, In u (docs w) -> 13600 <= LastMessage u ->
                 ~ In (Some (strconv.FormatInt (UserID u)))
                      (map (param "user_id") (ban_requests delta)).
Proof.
  apply (WatchKick_cycle_spares_recent_members Cases.later Scenario.watcher
           (Scenario.stored [Cases.alice; Cases.bob])).
  repeat constructor; cbn; intuition discriminate.
Defined.

(** ** Reading the settings *)

Lemma ParseUint_loop_step (c : ascii) (s : string) (n i : Z) :
  digit c = Some i ->
  n <= maxUint64 / 10 ->
  n * 10 + i <= maxUint64 ->
  ParseUint_loop (String.String c s) n = ParseUint_loop s (n * 10 + i).
Proof.
  intros Hd Hn Hi. cbn [ParseUint_loop]. rewrite Hd.
  destruct (Z.leb_spec (maxUint64 / 10 + 1) n) as [H|_]; [lia|].
  cbv zeta. destruct (Z.ltb_spec maxUint64 (n * 10 + i)) as [H|_]; [lia|].
  reflexivity.
Qed.

Lemma of_lu_revapp_le (l b : Decimal.uint) :
  (DecimalPos.Unsigned.of_lu b
   <= DecimalPos.Unsigned.of_lu (Decimal.revapp l b))%N.
Proof.
  rewrite DecimalPos.Unsigned.of_lu_revapp.
  assert (1 <= 10 ^ DecimalPos.Unsigned.usize l)%N.
  { pose proof (N.pow_nonzero 10 (DecimalPos.Unsigned.usize l)). lia. }
  nia.
Qed.

(** On the digits of a number that fits [uint64], the loop of
    [ParseUint] reads that number. *)
Lemma ParseUint_loop_digits (d a : Decimal.uint) :
  Z.of_N (DecimalPos.Unsigned.of_lu (Decimal.revapp d a)) <= maxUint64 ->
  ParseUint_loop (NilEmpty.string_of_uint d) (Z.of_N (DecimalPos.Unsigned.of_lu a))
  = inl (Z.of_N (DecimalPos.Unsigned.of_lu (Decimal.revapp d a))).
Proof.
  revert a. induction d as [|d IH|d IH|d IH|d IH|d IH|d IH|d IH|d IH|d IH|d IH];
    intros a H; cbn [NilEmpty.string_of_uint Decimal.revapp] in *;
    [reflexivity|..];
    match goal with
    | H : Z.of_N (DecimalPos.Unsigned.of_lu (Decimal.revapp d ?b)) <= _ |- _ =>
        pose proof (of_lu_revapp_le d b) as M;
        cbn [DecimalPos.Unsigned.of_lu] in M;
        assert (B : maxUint64 / 10 = 1844674407370955161) by reflexivity;
        assert (B' : maxUint64 = 18446744073709551615) by reflexivity;
        match goal with
        | |- ParseUint_loop (String.String ?c _) _ = _ =>
            let v := eval vm_compute in (digit c) in
            match v with
            | Some ?i => rewrite (ParseUint_loop_step c _ _ i eq_refl) by lia
            end
        end;
        rewrite <- (IH b H); f_equal; cbn [DecimalPos.Unsigned.of_lu]; lia
    end.
Qed.

Lemma ParseUint_loop_positive (p : positive) :
  Z.pos p <= maxUint64 ->
  ParseUint_loop (NilEmpty.string_of_uint (Pos.to_uint p)) 0 = inl (Z.pos p).
Proof.
  intro H.
  assert (V : Z.of_N (DecimalPos.Unsigned.of_lu
                        (Decimal.revapp (Pos.to_uint p) Decimal.Nil)) = Z.pos p).
  { change (Decimal.revapp (Pos.to_uint p) Decimal.Nil)
      with (Decimal.rev (Pos.to_uint p)).
    now rewrite <- DecimalPos.Unsigned.of_uint_alt, DecimalPos.Unsigned.of_to. }
  pose proof (ParseUint_loop_digits (Pos.to_uint p) Decimal.Nil) as L.
  rewrite V in L. exact (L H).
Qed.

(** The first byte of a positive number's spelling is a digit. *)
Lemma string_of_uint_head (p : positive) :
  exists (c : ascii) (s : string),
    NilEmpty.string_of_uint (Pos.to_uint p) = String.String c s
    /\ Ascii.eqb c "+" = false /\ Ascii.eqb c "-" = false.
Proof.
  pose proof (DecimalPos.Unsigned.to_uint_nonnil p) as N.
  destruct (Pos.to_uint p); [contradiction|..];
    cbn [NilEmpty.string_of_uint]; eexists _, _; repeat split.
Qed.

(** [strconv.Atoi] reads back what [strconv.FormatInt] wrote. *)
Lemma Atoi_FormatInt (z : Z) :
  in_int64 z = true -> Atoi (strconv.FormatInt z) = inl z.
Proof.
  unfold in_int64. rewrite andb_true_iff, Z.leb_le, Z.ltb_lt.
  change (2 ^ 63) with 9223372036854775808. intros [Hlo Hhi].
  assert (B' : maxUint64 = 18446744073709551615) by reflexivity.
  destruct z as [|p|p]; [reflexivity| |].
  - unfold strconv.FormatInt. cbn [Z.to_int NilZero.string_of_int].
    assert (S : NilZero.string_of_uint (Pos.to_uint p)
                = NilEmpty.string_of_uint (Pos.to_uint p)).
    { pose proof (DecimalPos.Unsigned.to_uint_nonnil p).
      now destruct (Pos.to_uint p). }
    rewrite S. destruct (string_of_uint_head p) as (c & s & Hs & Hp & Hm).
    pose proof (ParseUint_loop_positive p ltac:(lia)) as L. rewrite Hs in L |- *.
    unfold Atoi. rewrite Hp, Hm. cbn [orb]. rewrite L.
    change (2 ^ 63) with 9223372036854775808.
    destruct (Z.leb_spec 9223372036854775808 (Z.pos p)); [lia|reflexivity].
  - unfold strconv.FormatInt. cbn [Z.to_int NilZero.string_of_int].
    assert (S : NilZero.string_of_uint (Pos.to_uint p)
                = NilEmpty.string_of_uint (Pos.to_uint p)).
    { pose proof (DecimalPos.Unsigned.to_uint_nonnil p).
      now destruct (Pos.to_uint p). }
    rewrite S. destruct (string_of_uint_head p) as (c & s & Hs & _ & _).
    pose proof (ParseUint_loop_positive p ltac:(lia)) as L. rewrite Hs in L |- *.
    unfold Atoi. cbn [Ascii.eqb Bool.eqb orb andb]. rewrite L.
    change (2 ^ 63) with 9223372036854775808.
    destruct (Z.ltb_spec 9223372036854775808 (Z.pos p)); [lia|reflexivity].
Qed.

Lemma FormatInt_nonempty (z : Z) : strconv.FormatInt z <> EmptyString.
Proof.
  unfold strconv.FormatInt. destruct z as [|p|p];
    cbn [Z.to_int NilZero.string_of_int]; try discriminate.
  pose proof (DecimalPos.Unsigned.to_uint_nonnil p) as N.
  destruct (string_of_uint_head p) as (c & s & Hs & _ & _).
  destruct (Pos.to_uint p); [contradiction|..];
    cbn [NilZero.string_of_uint]; rewrite Hs; discriminate.
Qed.

Lemma ParseUint_loop_reads_digits (s : string) (n m : Z) :
  ParseUint_loop s n = inl m ->
  0 <= n ->
  (all_digits s = true /\ n <= m <= maxUint64) \/ (s = EmptyString /\ m = n).
Proof.
  revert n. induction s as [|c s IH]; intros n H Hn; cbn [ParseUint_loop] in H.
  - right. split; [reflexivity|]. now injection H.
  - left. cbn [all_digits]. destruct (digit c) as [d|] eqn:Hd; [|discriminate].
    assert (0 <= d).
    { unfold digit in Hd.
      destruct ((48 <=? Z.of_N (N_of_ascii c)) && (Z.of_N (N_of_ascii c) <=? 57)) eqn:B;
        [|discriminate].
      injection Hd as <-. apply andb_true_iff in B. lia. }
    destruct (maxUint64 / 10 + 1 <=? n); [discriminate|]. cbv zeta in H.
    destruct (Z.ltb_spec maxUint64 (n * 10 + d)) as [|Hle]; [discriminate|].
    destruct (IH _ H ltac:(lia)) as [[A B]|[-> ->]].
    + split; [exact A|lia].
    + split; [reflexivity|lia].
Qed.

Section SettingsFacts.
Variable Getenv : string -> string.
Variable ParseDuration : string -> Z + error.

Lemma stringEnv_set (key : string) :
  Getenv key <> EmptyString -> stringEnv Getenv key = Loaded (Getenv key).
Proof.
  intro H. unfold stringEnv. cbv zeta.
  destruct (String.eqb_spec (Getenv key) ""); [contradiction|reflexivity].
Qed.

(** X20.  A setting that is not set, or set to the empty string, ends
    the start-up in each of the three readers, with the same fatal line
    naming the variable; a string setting that is not empty is returned
    as it is. *)
Theorem settings_must_be_set (key : string) :
  (Getenv key = EmptyString ->
   stringEnv Getenv key = Fatalf None "no env %q specified" [key]
   /\ intEnv Getenv key = Fatalf None "no env %q specified" [key]
   /\ durationEnv Getenv ParseDuration key
      = Fatalf None "no env %q specified" [key])
  /\ (Getenv key <> EmptyString -> stringEnv Getenv key = Loaded (Getenv key)).
Proof.
  split; [|apply stringEnv_set].
  intro H. unfold intEnv, durationEnv, stringEnv. rewrite H. now repeat split.
Qed.

(** X21.  A chat id written in [TELEGRAM_CHAT] the way
    [strconv.FormatInt] writes it is read by [intEnv] as that number, for
    every number of [int64]; the [chat_id] the bot then sends to Telegram
    is the setting as it was written. *)
Theorem intEnv_reads_back_FormatInt (key : string) (z : Z) :
  in_int64 z = true ->
  Getenv key = strconv.FormatInt z ->
  intEnv Getenv key = Loaded z
  /\ telebot.Recipient z = Getenv key.
Proof.
  intros Hz Hk. split; [|now rewrite Hk].
  unfold intEnv. rewrite stringEnv_set by (rewrite Hk; apply FormatInt_nonempty).
  now rewrite Hk, (Atoi_FormatInt z Hz).
Qed.

(** X22.  Whatever [intEnv] returns is a number of [int64], read from a
    setting that spells an optional sign and then one or more decimal
    digits and nothing else; any other setting ends the start-up. *)
Theorem intEnv_returns_only_numbers (key : string) (z : Z) :
  intEnv Getenv key = Loaded z ->
  in_int64 z = true
  /\ exists body : string,
      body <> EmptyString
      /\ all_digits body = true
      /\ (Getenv key = body
          \/ Getenv key = String.String "+" body
          \/ Getenv key = String.String "-" body).
Proof.
  unfold intEnv, stringEnv. cbv zeta.
  destruct (String.eqb (Getenv key) ""); [discriminate|].
  destruct (Atoi (Getenv key)) as [r|e] eqn:A; [|discriminate].
  intros [= ->]. unfold Atoi in A. cbv zeta in A.
  destruct (Getenv key) as [|c s]; [discriminate|].
  set (body := if (Ascii.eqb c "+" || Ascii.eqb c "-")%bool then s else String.String c s)
    in A.
  assert (Hbody : String.String c s = body
                  \/ String.String c s = String.String "+" body
                  \/ String.String c s = String.String "-" body).
  { subst body. destruct (Ascii.eqb_spec c "+") as [->|_]; [right; now left|].
    destruct (Ascii.eqb_spec c "-") as [->|_]; [right; now right|now left]. }
  destruct body as [|b body'] eqn:Eb; [discriminate|].
  destruct (ParseUint_loop (String.String b body') 0) as [un|k] eqn:L; [|discriminate].
  destruct (ParseUint_loop_reads_digits _ _ _ L ltac:(lia)) as [[D R]|[N _]];
    [|discriminate].
  assert (B' : maxUint64 = 18446744073709551615) by reflexivity.
  change (2 ^ 63) with 9223372036854775808 in A.
  split.
  - unfold in_int64. change (2 ^ 63) with 9223372036854775808.
    rewrite andb_true_iff, Z.leb_le, Z.ltb_lt.
    destruct (Ascii.eqb c "-").
    + destruct (Z.ltb_spec 9223372036854775808 un); [discriminate|].
      injection A as <-. lia.
    + destruct (Z.leb_spec 9223372036854775808 un); [discriminate|].
      injection A as <-. lia.
  - exists (String.String b body'). split; [discriminate|]. split; [exact D|exact Hbody].
Qed.

End SettingsFacts.

Lemma settings_must_be_set_witness :
  let Getenv := fun key : string =>
                  if String.eqb key "MONGODB_URI"
                  then "mongodb://db/chat"%string else EmptyString in
  let ParseDuration := fun _ : string =>
                         inr (errors_New "time: invalid duration") : Z + error in
  (stringEnv Getenv "DURATION" = Fatalf None "no env %q specified" ["DURATION"%string]
   /\ intEnv Getenv "DURATION" = Fatalf None "no env %q specified" ["DURATION"%string]
   /\ durationEnv Getenv ParseDuration "DURATION"
      = Fatalf None "no env %q specified" ["DURATION"%string])
  /\ stringEnv Getenv "MONGODB_URI" = Loaded "mongodb://db/chat"%string.
Proof.
  split.
  - exact (proj1 (settings_must_be_set
                    (fun key : string =>
                       if String.eqb key "MONGODB_URI"
                       then "mongodb://db/chat"%string else EmptyString)
                    (fun _ : string => inr (errors_New "time: invalid duration"))
                    "DURATION") eq_refl).
  - exact (proj2 (settings_must_be_set
                    (fun key : string =>
                       if String.eqb key "MONGODB_URI"
                       then "mongodb://db/chat"%string else EmptyString)
                    (fun _ : string => inr (errors_New "time: invalid duration"))
                    "MONGODB_URI") ltac:(discriminate)).
Defined.

Lemma intEnv_reads_back_FormatInt_witness :
  let Getenv := fun _ : string => "-1001234567890"%string in
  intEnv Getenv "TELEGRAM_CHAT" = Loaded (-1001234567890)
  /\ telebot.Recipient (-1001234567890) = Getenv "TELEGRAM_CHAT"%string.
Proof.
  exact (intEnv_reads_back_FormatInt (fun _ : string => "-1001234567890"%string)
           "TELEGRAM_CHAT" (-1001234567890) eq_refl eq_refl).
Defined.

Lemma intEnv_returns_only_numbers_witness :
  in_int64 7 = true
  /\ exists body : string,
      body <> EmptyString
      /\ all_digits body = true
      /\ ("+007"%string = body
          \/ "+007"%string = String.String "+" body
          \/ "+007"%string = String.String "-" body).
Proof.
  exact (intEnv_returns_only_numbers (fun _ : string => "+007"%string)
           "TELEGRAM_CHAT" 7 eq_refl).
Defined.

(** ** A failed ban in the scanner's log *)

(** X23.  When the ban request for a candidate fails and its body cannot
    be decoded (as when the request never reached Telegram), the scanner
    logs that failure at the error level with the member's id, sends no
    second request, and returns to the loop over the candidates. *)
Theorem kick_logs_undecodable_failure
        (E : Env) (watcher : Watcher) (user : User) (w : World)
        (data : json.text) (banErr : error) :
  let line := Log Info None "kick %v" [UserID user] in
  let t := clock E (trace w ++ [line]) in
  let p := banParams (telebot.Recipient (chat watcher)) (UserID user)
                     (telebot.ForeverAt t) in
  api_Raw E (trace w ++ [line; Now t]) "banChatMember" p = (data, Some banErr) ->
  json.Unmarshal data = None ->
  kick E watcher user w =
  (Ret tt,
   extend w [line; Now t; BotRaw "banChatMember" p data (Some banErr);
             Log Error (Some banErr) "ban %v" [UserID user]]).
Proof.
  intros line t p H1 H2. unfold kick, log_Infof, log_Errorf, emit.
  unfold bind at 1.
  pose proof (ban_undecodable_returns_failure E watcher (UserID user)
                (record line w) banErr) as B.
  cbv zeta in B. cbn [trace record] in B. fold t in B. fold p in B.
  rewrite <- app_assoc in B. cbn [app] in B. rewrite H1 in B.
  specialize (B eq_refl H2). fold line. unfold bind. rewrite B. now tidy.
Qed.

Lemma kick_logs_undecodable_failure_witness :
  let E := Scenario.env (Scenario.clock_from 1000) Scenario.healthy
                        (fun _ _ _ => (None, Some Scenario.unreachable)) in
  kick E Scenario.watcher Cases.alice Scenario.empty =
  (Ret tt,
   extend Scenario.empty
     [Log Info None "kick %v" [1];
      Now (time.FromUnix 1000);
      BotRaw "banChatMember"
             [("chat_id", "-100"); ("user_id", "1"); ("until_date", "31709800")]%string
             None (Some Scenario.unreachable);
      Log Error (Some Scenario.unreachable) "ban %v" [1]]).
Proof.
  exact (kick_logs_undecodable_failure
           (Scenario.env (Scenario.clock_from 1000) Scenario.healthy
                         (fun _ _ _ => (None, Some Scenario.unreachable)))
           Scenario.watcher Cases.alice Scenario.empty None Scenario.unreachable
           eq_refl eq_refl).
Defined.
